(** * Legislative collaboration network: the data-preparation pipeline

    A shallow embedding of [src/data processing/SQL_dumper.py] and the
    properties its specification states about it.

    Conventions of the embedding.
    - A pandas data frame is a [list] of typed rows, one record type per
      table, in row order.  A cell that pandas reads as NaN is [None] in a
      column typed [option _]; the columns the code never tests for NaN
      (identifiers, congress numbers, titles) are typed without [option].
    - Python [dict] and [defaultdict] are stdpp [gmap]s, a Python [set] is a
      [gset].  The order in which a [set] is iterated, the order pandas gives
      to rows that tie in [sort_values], and the date parser and formatter
      are not fixed by the source: they are fields of a [Runtime].
    - Python exceptions are values of [result].
    - Member identifiers are byte strings compared with [String.ltb], which
      is Python's order on [str] for ASCII identifiers.
    - The tables are well typed: every bill number and member id is
      present, and a district cell is missing or a whole number.  On a
      table that is not, the source stops before the stages modelled here
      ([astype(int)] raises [ValueError] on a district that is not a
      number, [sorted] raises [TypeError] on a missing member id); no
      statement below is about such a table. *)

From stdpp Require Import base gmap sets list strings pretty sorting.
From Stdlib Require Import ZArith.
From Stdlib Require OrderedTypeEx.

Local Open Scope string_scope.
Local Open Scope Z_scope.

(** ** Python exceptions *)

Inductive py_error : Type := ValueError | TypeError.

Inductive result (A : Type) : Type :=
  | Ok (a : A)
  | Raise (e : py_error).
Arguments Ok {A} a.
Arguments Raise {A} e.

Definition rbind {A B : Type} (r : result A) (k : A → result B) : result B :=
  match r with
  | Ok a => k a
  | Raise e => Raise e
  end.

Notation "x ←ᵣ r ; k" := (rbind r (λ x, k))
  (at level 20, r at level 100, k at level 200, right associativity,
   format "x  ←ᵣ  r ;  '/' k").

(** ** What the source leaves to its runtime *)

Record Runtime : Type := {
  (** pandas [Timestamp] *)
  Timestamp : Type;
  (** [pd.to_datetime(cell, errors='coerce')] on a present cell:
      [None] is NaT *)
  to_datetime : string → option Timestamp;
  (** [Timestamp.strftime('%Y-%m-%d')] *)
  strftime : Timestamp → string;
  (** [df.sort_values(col, ascending=False)]: pandas sorts with an unstable
      quicksort, so only the multiset of rows is known *)
  sort_values_desc : ∀ A : Type, (A → option Timestamp) → list A → list A;
  sort_values_desc_perm :
    ∀ (A : Type) (key : A → option Timestamp) (l : list A),
      sort_values_desc A key l ≡ₚ l;
  (** the order in which [for x in a_set] visits a set of strings *)
  set_iter : gset string → list string;
  set_iter_perm : ∀ X : gset string, set_iter X ≡ₚ elements X;
  (** [datetime.now().strftime('%Y-%m-%d')] *)
  today : string
}.

(** ** Input tables (the five CSV files) *)

Module BillsCsv.
Record row : Type := {
  bill_number : string;
  congress : Z;
  title : string;
  latest_action_date : option string;
  latest_action_text : string;
  origin_chamber : string
}.
End BillsCsv.

(** A whole number that pandas holds exactly whatever dtype it gives the
    column: [int64] when no cell of the column is missing, [float64] when
    one is.  Both hold every integer of magnitude below 2^53 exactly, and
    [astype(int)] is the identity on them. *)
Record exact_int : Type := {
  int_value : Z;
  int_exact : Is_true (Z.abs int_value <? 2 ^ 53)
}.

Module LegislatorsCsv.
Record row : Type := {
  bioguide_id : string;
  first_name : string;
  last_name : string;
  state : string;
  district : option exact_int;
  party : option string
}.
End LegislatorsCsv.

Module Sponsors.
Record row : Type := {
  bill_number : string;
  bioguide_id : string;
  sponsor_type : string
}.

#[global] Instance row_eq_dec : EqDecision row.
Proof. solve_decision. Defined.
End Sponsors.

Module Policies.
Record row : Type := {
  policy_id : Z;
  name : option string
}.
End Policies.

Module Links.
Record row : Type := {
  bill_number : string;
  policy_id : Z
}.
End Links.

(** ** Cleaned tables *)

(** [bills_df] as [load_and_clean_data] returns it *)
Module Bills.
Record row : Type := {
  bill_number : string;
  congress : Z;
  title : string;
  latest_action_date : option string;
  latest_action_text : string;
  origin_chamber : string;
  policy_id : option Z;
  policy_name : option string
}.
End Bills.

(** [legislators_df] as [load_and_clean_data] returns it *)
Module Legislators.
Record row : Type := {
  bioguide_id : string;
  first_name : string;
  last_name : string;
  state : string;
  district : Z;
  party : string;
  full_name : string
}.
End Legislators.

(** ** Public entities *)

Record Metrics : Type := {
  primary_count : nat;
  cosponsor_count : nat;
  total_collaborations : nat;
  party_collaborations : gmap string nat
}.

Module Legislator.
Record t : Type := {
  id : string;
  name : string;
  state : string;
  district : option Z;
  party : string;
  first_name : string;
  last_name : string;
  metrics : option Metrics
}.
End Legislator.

Module Bill.
Record t : Type := {
  bill_number : string;
  congress : Z;
  title : string;
  latest_action_date : option string;
  latest_action_text : string;
  origin_chamber : string;
  policy_id : option Z;
  policy_name : string
}.
End Bill.

Module Policy.
Record t : Type := {
  id : string;
  name : option string
}.
End Policy.

Record BillInfo : Type := {
  info_congress : Z;
  info_title : string;
  info_latest_action_text : string;
  info_latest_action_date : option string
}.

Record Collaboration : Type := {
  source : string;
  target : string;
  bill_number : string;
  congress : Z;
  title : string;
  latest_action : string;
  action_date : option string;
  relationship : string
}.

Record Metadata : Type := {
  congress_range : Z * Z;
  total_bills : nat;
  metadata_total_collaborations : nat;
  total_legislators : nat;
  date_range : option string * option string;
  party_distribution : gmap string nat;
  policies_total : nat;
  policies_counts : gmap string nat;
  date_generated : string
}.

Record Snapshot : Type := {
  legislators : list Legislator.t;
  bills : list Bill.t;
  collaborations : list Collaboration;
  policies : list Policy.t;
  metadata : Metadata
}.


(** ** Python built-ins used by the source *)

(** [sorted([a, b])] as a pair: the stable sort swaps the two exactly when
    [b < a]. *)
Definition sorted_pair (a b : string) : string * string :=
  if String.ltb b a then (b, a) else (a, b).

(** [d[k] += 1] on a [defaultdict(int)] *)
Definition incr `{Countable K} (k : K) (d : gmap K nat) : gmap K nat :=
  <[k := S (default 0%nat (d !! k))]> d.

(** [min(xs)]: the first element is the candidate, every later [item]
    replaces it when [item < candidate]; the comparison may raise. *)
Fixpoint py_min_from {A : Type} (lt : A → A → result bool)
    (candidate : A) (xs : list A) : result A :=
  match xs with
  | [] => Ok candidate
  | item :: xs =>
      b ←ᵣ lt item candidate;
      py_min_from lt (if b then item else candidate) xs
  end.

Definition py_min {A : Type} (lt : A → A → result bool) (xs : list A)
    : result A :=
  match xs with
  | [] => Raise ValueError
  | x :: xs => py_min_from lt x xs
  end.

(** [max(xs)] is [min] with [item > candidate], that is [candidate < item]. *)
Definition py_max {A : Type} (lt : A → A → result bool) (xs : list A)
    : result A :=
  py_min (λ item candidate, lt candidate item) xs.

Definition int_lt (a b : Z) : result bool := Ok (a <? b).

(** [<] on the values of the formatted date column: [str < str] is the
    string order, [nan < nan] is [False], and [str] against [float] raises
    [TypeError]. *)
Definition date_lt (a b : option string) : result bool :=
  match a, b with
  | Some x, Some y => Ok (String.ltb x y)
  | None, None => Ok false
  | _, _ => Raise TypeError
  end.

(** ** pandas operations used by the source *)

(** [left.merge(right, on=key, how='left')]: every left row is kept, in
    order; it is paired with each right row of the same key, or with NaN
    when there is none.  A NaN key on the left meets no right row, the right
    keys being present. *)
Definition merge_left {A B K : Type} `{EqDecision K}
    (left_key : A → option K) (right_key : B → K)
    (left : list A) (right : list B) : list (A * option B) :=
  left ≫= λ a,
    match filter (λ b, left_key a = Some (right_key b)) right with
    | [] => [(a, None)]
    | matches => (λ b, (a, Some b)) <$> matches
    end.

(** [df.groupby('bill_number')]: the groups in increasing key order, each
    with its rows in frame order. *)
Definition groupby_bill_number (df : list Sponsors.row)
    : list (string * list Sponsors.row) :=
  (λ k, (k, filter (λ row, Sponsors.bill_number row = k) df)) <$>
    merge_sort (λ a b, String.leb a b)
      (remove_dups (Sponsors.bill_number <$> df)).

(** [series.value_counts().to_dict()] *)
Definition value_counts (xs : list string) : gmap string nat :=
  foldl (λ d x, incr x d) ∅ xs.

(** ** [load_and_clean_data] *)

Definition default_target_congress : Z := 117.

Definition clean_legislator (x : LegislatorsCsv.row) : Legislators.row :=
  {| Legislators.bioguide_id := LegislatorsCsv.bioguide_id x;
     Legislators.first_name := LegislatorsCsv.first_name x;
     Legislators.last_name := LegislatorsCsv.last_name x;
     Legislators.state := LegislatorsCsv.state x;
     Legislators.district :=
       default (-1) (int_value <$> LegislatorsCsv.district x);
     Legislators.party := default "O" (LegislatorsCsv.party x);
     Legislators.full_name :=
       LegislatorsCsv.first_name x +:+ " " +:+ LegislatorsCsv.last_name x |}.

Definition load_and_clean_data (rt : Runtime)
    (bills_csv : list BillsCsv.row)
    (legislators_csv : list LegislatorsCsv.row)
    (bill_sponsors_csv : list Sponsors.row)
    (bill_policies_csv : list Policies.row)
    (bill_policy_links_csv : list Links.row)
    (target_congress : option Z)
    : list Bills.row * list Legislators.row * list Sponsors.row
      * list Policies.row :=
  let target_congress := default default_target_congress target_congress in
  (* Filter bills for target congress *)
  let bills_df :=
    filter (λ b, target_congress ≤ BillsCsv.congress b) bills_csv in
  (* Sort by latest action date *)
  let bills_df :=
    (λ b, (b, BillsCsv.latest_action_date b ≫= to_datetime rt)) <$> bills_df in
  let bills_df := sort_values_desc rt _ snd bills_df in
  (* Clean legislators data *)
  let legislators_df := clean_legislator <$> legislators_csv in
  (* First merge: bills with policy links *)
  let bills_df :=
    merge_left
      (λ r : BillsCsv.row * option (Timestamp rt),
         Some (BillsCsv.bill_number r.1))
      Links.bill_number
      bills_df bill_policy_links_csv in
  let bills_df :=
    (λ r : BillsCsv.row * option (Timestamp rt) * option Links.row,
       (r.1, Links.policy_id <$> r.2)) <$> bills_df in
  (* Second merge: add policy names *)
  let bills_df :=
    merge_left (λ r : BillsCsv.row * option (Timestamp rt) * option Z, r.2)
      Policies.policy_id bills_df bill_policies_csv in
  (* Format dates back to string for JSON *)
  let bills_df :=
    (λ r : BillsCsv.row * option (Timestamp rt) * option Z
           * option Policies.row,
       let b := r.1.1.1 in
       {| Bills.bill_number := BillsCsv.bill_number b;
          Bills.congress := BillsCsv.congress b;
          Bills.title := BillsCsv.title b;
          Bills.latest_action_date := strftime rt <$> r.1.1.2;
          Bills.latest_action_text := BillsCsv.latest_action_text b;
          Bills.origin_chamber := BillsCsv.origin_chamber b;
          Bills.policy_id := r.1.2;
          Bills.policy_name := r.2 ≫= Policies.name |}) <$> bills_df in
  (bills_df, legislators_df, bill_sponsors_csv, bill_policies_csv).

(** ** [create_legislator_nodes] *)

Definition create_legislator_nodes (legislators_df : list Legislators.row)
    : list Legislator.t :=
  (λ row,
     {| Legislator.id := Legislators.bioguide_id row;
        Legislator.name := Legislators.full_name row;
        Legislator.state := Legislators.state row;
        Legislator.district :=
          if decide (Legislators.district row ≠ -1)
          then Some (Legislators.district row) else None;
        Legislator.party := Legislators.party row;
        Legislator.first_name := Legislators.first_name row;
        Legislator.last_name := Legislators.last_name row;
        Legislator.metrics := None |}) <$> legislators_df.

(** ** [process_bills] *)

Definition process_bills (bills_df : list Bills.row) : list Bill.t :=
  (λ row,
     {| Bill.bill_number := Bills.bill_number row;
        Bill.congress := Bills.congress row;
        Bill.title := Bills.title row;
        Bill.latest_action_date := Bills.latest_action_date row;
        Bill.latest_action_text := Bills.latest_action_text row;
        Bill.origin_chamber := Bills.origin_chamber row;
        Bill.policy_id := Bills.policy_id row;
        Bill.policy_name := default "Uncategorized" (Bills.policy_name row)
     |}) <$> bills_df.

(** ** [process_collaborations] *)

(** the bill info lookup: a later row of the same bill number overwrites an
    earlier one *)
Definition bill_info_of (bills_df : list Bills.row) : gmap string BillInfo :=
  foldl (λ bill_info row,
           <[Bills.bill_number row :=
               {| info_congress := Bills.congress row;
                  info_title := Bills.title row;
                  info_latest_action_text := Bills.latest_action_text row;
                  info_latest_action_date := Bills.latest_action_date row |}]>
             bill_info)
    ∅ bills_df.

(** [df[df.sponsor_type == 'Primary'].set_index('bill_number')
      ['bioguide_id'].to_dict()]: the last Primary row of a bill wins *)
Definition primary_sponsors_of (bill_sponsors_df : list Sponsors.row)
    : gmap string string :=
  foldl (λ d row, <[Sponsors.bill_number row := Sponsors.bioguide_id row]> d)
    ∅
    (filter (λ row, Sponsors.sponsor_type row = "Primary") bill_sponsors_df).

(** the counting pass over one group: connect the primary sponsor to each
    cosponsor *)
Definition count_cosponsors (primary_sponsor : string)
    (cosponsors : list string) (collaboration_counts : gmap (string * string) nat)
    : gmap (string * string) nat :=
  foldl (λ counts cosponsor,
           incr (sorted_pair primary_sponsor cosponsor) counts)
    collaboration_counts cosponsors.

Definition collaboration_counts_of (valid_bills : gset string)
    (primary_sponsors : gmap string string)
    (bill_sponsors_df : list Sponsors.row) : gmap (string * string) nat :=
  foldl (λ counts g,
           match primary_sponsors !! g.1 with
           | None => counts
           | Some primary_sponsor =>
               count_cosponsors primary_sponsor
                 (Sponsors.bioguide_id <$> g.2) counts
           end)
    ∅
    (groupby_bill_number
       (filter (λ row, Sponsors.bill_number row ∈ valid_bills
                       ∧ Sponsors.sponsor_type row = "Cosponsor")
          bill_sponsors_df)).

Definition min_collaborations : nat := 2.

Definition significant_pairs_of
    (collaboration_counts : gmap (string * string) nat)
    : gmap (string * string) nat :=
  filter (λ kv, (min_collaborations ≤ kv.2)%nat) collaboration_counts.

(** the records one bill contributes in the emitting pass *)
Definition bill_collaborations
    (significant_pairs : gmap (string * string) nat)
    (bill_number : string) (bill_data : BillInfo)
    (primary_sponsor : string) (cosponsors : list string)
    : list Collaboration :=
  cosponsors ≫= λ cosponsor,
    let pair := sorted_pair primary_sponsor cosponsor in
    if decide (is_Some (significant_pairs !! pair)) then
      [ {| source := pair.1;
           target := pair.2;
           bill_number := bill_number;
           congress := info_congress bill_data;
           title := info_title bill_data;
           latest_action := info_latest_action_text bill_data;
           action_date := info_latest_action_date bill_data;
           relationship := "Primary-Cosponsor" |} ]
    else [].

(** [bill_info[bill_number]] cannot raise [KeyError] in the emitting pass,
    the loop running over the keys of [bill_info]
    (see [bill_info_valid_bills]); the [None] branch is only there to make
    the match total. *)
Definition process_collaborations (rt : Runtime)
    (bill_sponsors_df : list Sponsors.row) (bills_df : list Bills.row)
    : list Collaboration :=
  let bill_info := bill_info_of bills_df in
  let primary_sponsors := primary_sponsors_of bill_sponsors_df in
  let valid_bills : gset string := dom bill_info in
  let collaboration_counts :=
    collaboration_counts_of valid_bills primary_sponsors bill_sponsors_df in
  let significant_pairs := significant_pairs_of collaboration_counts in
  set_iter rt valid_bills ≫= λ bill_number,
    match primary_sponsors !! bill_number with
    | None => []
    | Some primary_sponsor =>
        let cosponsors :=
          Sponsors.bioguide_id <$>
            filter (λ row, Sponsors.bill_number row = bill_number
                           ∧ Sponsors.sponsor_type row = "Cosponsor")
              bill_sponsors_df in
        match bill_info !! bill_number with
        | None => []
        | Some bill_data =>
            bill_collaborations significant_pairs bill_number bill_data
              primary_sponsor cosponsors
        end
    end.

(** ** [calculate_sponsor_stats] *)

(** the [defaultdict] factory *)
Definition default_stats : Metrics :=
  {| primary_count := 0;
     cosponsor_count := 0;
     total_collaborations := 0;
     party_collaborations := ∅ |}.

Definition party_lookup_of (legislators : list Legislator.t)
    : gmap string string :=
  foldl (λ d leg, <[Legislator.id leg := Legislator.party leg]> d)
    ∅ legislators.

(** [stats[who]['total_collaborations'] += 1] *)
Definition add_total (who : string) (stats : gmap string Metrics)
    : gmap string Metrics :=
  let s := default default_stats (stats !! who) in
  <[who := {| primary_count := primary_count s;
              cosponsor_count := cosponsor_count s;
              total_collaborations := S (total_collaborations s);
              party_collaborations := party_collaborations s |}]> stats.

(** [stats[who]['party_collaborations'][party] += 1] *)
Definition add_party (who party : string) (stats : gmap string Metrics)
    : gmap string Metrics :=
  let s := default default_stats (stats !! who) in
  <[who := {| primary_count := primary_count s;
              cosponsor_count := cosponsor_count s;
              total_collaborations := total_collaborations s;
              party_collaborations := incr party (party_collaborations s) |}]>
    stats.

(** the body of the loop over the collaborations *)
Definition stats_step (party_lookup : gmap string string)
    (stats : gmap string Metrics) (collab : Collaboration)
    : gmap string Metrics :=
  let source_id := source collab in
  let target_id := target collab in
  (* Update source stats *)
  let stats := add_total source_id stats in
  let stats :=
    add_party source_id (default "O" (party_lookup !! target_id)) stats in
  (* Update target stats *)
  let stats := add_total target_id stats in
  add_party target_id (default "O" (party_lookup !! source_id)) stats.

Definition calculate_sponsor_stats (legislators : list Legislator.t)
    (collaborations : list Collaboration) : gmap string Metrics :=
  foldl (stats_step (party_lookup_of legislators)) ∅ collaborations.

(** ** [prepare_network_data] *)

Definition active_legislators_of (collaborations : list Collaboration)
    : gset string :=
  foldl (λ active collab, {[target collab]} ∪ ({[source collab]} ∪ active))
    ∅ collaborations.

Definition attach_metrics (metrics : gmap string Metrics)
    (legislator : Legislator.t) : Legislator.t :=
  match metrics !! Legislator.id legislator with
  | Some m =>
      {| Legislator.id := Legislator.id legislator;
         Legislator.name := Legislator.name legislator;
         Legislator.state := Legislator.state legislator;
         Legislator.district := Legislator.district legislator;
         Legislator.party := Legislator.party legislator;
         Legislator.first_name := Legislator.first_name legislator;
         Legislator.last_name := Legislator.last_name legislator;
         Legislator.metrics := Some m |}
  | None => legislator
  end.

(** the policy histogram: count bills per policy *)
Definition policy_counts_of (bills : list Bill.t) : gmap string nat :=
  foldl (λ policy_counts bill,
           let policy_name := Bill.policy_name bill in
           if decide (policy_name ≠ "Uncategorized")
           then incr policy_name policy_counts
           else policy_counts)
    ∅ bills.

(** [str(row['policy_id'])] on a row that [iterrows] yields.  The row is
    one Series: when every name of the table is missing, the name column is
    [float64], the Series too, and an id 7 is printed as 7.0; with a name
    present the Series holds objects and the id is printed as an integer.
    (The float is printed this way up to 10^16.) *)
Definition str_policy_id (bill_policies_df : list Policies.row)
    (policy_id : Z) : string :=
  if bool_decide (Forall (λ row, Policies.name row = None) bill_policies_df)
  then pretty policy_id +:+ ".0"
  else pretty policy_id.

Definition prepare_network_data (rt : Runtime)
    (bills_csv : list BillsCsv.row)
    (legislators_csv : list LegislatorsCsv.row)
    (bill_sponsors_csv : list Sponsors.row)
    (bill_policies_csv : list Policies.row)
    (bill_policy_links_csv : list Links.row)
    (target_congress : option Z) : result Snapshot :=
  let target_congress := default default_target_congress target_congress in
  let cleaned :=
    load_and_clean_data rt bills_csv legislators_csv bill_sponsors_csv
      bill_policies_csv bill_policy_links_csv (Some target_congress) in
  let bills_df : list Bills.row := cleaned.1.1.1 in
  let legislators_df : list Legislators.row := cleaned.1.1.2 in
  let bill_sponsors_df : list Sponsors.row := cleaned.1.2 in
  let bill_policies_df : list Policies.row := cleaned.2 in
  let all_legislators := create_legislator_nodes legislators_df in
  let bills := process_bills bills_df in
  let collaborations := process_collaborations rt bill_sponsors_df bills_df in
  (* Get active legislators and their metrics *)
  let active_legislators := active_legislators_of collaborations in
  let legislators :=
    filter (λ leg, Legislator.id leg ∈ active_legislators) all_legislators in
  let metrics := calculate_sponsor_stats legislators collaborations in
  (* Add metrics to legislators *)
  let legislators : list Legislator.t :=
    attach_metrics metrics <$> legislators in
  (* Get policy information *)
  let policies : list Policy.t :=
    (λ row, {| Policy.id :=
                 str_policy_id bill_policies_df (Policies.policy_id row);
               Policy.name := Policies.name row |}) <$> bill_policies_df in
  (* Count bills per policy *)
  let policy_counts := policy_counts_of bills in
  (* Create metadata *)
  congress_start ←ᵣ py_min int_lt (Bills.congress <$> bills_df);
  congress_end ←ᵣ py_max int_lt (Bills.congress <$> bills_df);
  date_start ←ᵣ py_min date_lt (Bill.latest_action_date <$> bills);
  date_end ←ᵣ py_max date_lt (Bill.latest_action_date <$> bills);
  Ok {| legislators := legislators;
        bills := bills;
        collaborations := collaborations;
        policies := policies;
        metadata :=
          {| congress_range := (congress_start, congress_end);
             total_bills := length bills;
             metadata_total_collaborations := length collaborations;
             total_legislators := length legislators;
             date_range := (date_start, date_end);
             party_distribution :=
               value_counts
                 (Legislators.party <$>
                    filter (λ row, Legislators.bioguide_id row
                                   ∈ active_legislators) legislators_df);
             policies_total := length policies;
             policies_counts := policy_counts;
             date_generated := today rt |} |}.

(** ** A reference runtime

    One concrete [Runtime], to run the pipeline on examples.  Timestamps
    are ISO strings; a cell parses when it is a calendar date written
    [yyyy-mm-dd] with a year from 1678 to 2261, all of which a pandas
    timestamp holds; rows that tie keep their order; a set is visited in
    the order of [elements].  pandas reads other spellings of a date as
    well: the examples use none. *)

Definition digit_value (c : Ascii.ascii) : option nat :=
  let n := Ascii.nat_of_ascii c in
  if (48 <=? n)%nat && (n <=? 57)%nat then Some (n - 48)%nat else None.

Definition number_of_digits (cs : list Ascii.ascii) : option nat :=
  foldl (λ acc c, n ← acc; d ← digit_value c; Some (10 * n + d)%nat)
    (Some 0%nat) cs.

Definition leap_year (y : nat) : bool :=
  ((y mod 4 =? 0) && negb (y mod 100 =? 0) || (y mod 400 =? 0))%nat.

Definition days_in_month (y m : nat) : nat :=
  match m with
  | 2 => if leap_year y then 29 else 28
  | 4 | 6 | 9 | 11 => 30
  | _ => 31
  end%nat.

Definition iso_date (s : string) : bool :=
  match String.list_ascii_of_string s with
  | [y1; y2; y3; y4; h1; m1; m2; h2; d1; d2] =>
      match number_of_digits [y1; y2; y3; y4],
            number_of_digits [m1; m2], number_of_digits [d1; d2] with
      | Some y, Some m, Some d =>
          (Ascii.nat_of_ascii h1 =? 45)%nat && (Ascii.nat_of_ascii h2 =? 45)%nat
          && (1678 <=? y)%nat && (y <=? 2261)%nat
          && (1 <=? m)%nat && (m <=? 12)%nat
          && (1 <=? d)%nat && (d <=? days_in_month y m)%nat
      | _, _, _ => false
      end
  | _ => false
  end.

Definition reference_to_datetime (s : string) : option string :=
  if iso_date s then Some s else None.

(** descending, NaT last *)
Definition date_ge (a b : option string) : Prop :=
  match a, b with
  | Some x, Some y => String.leb y x
  | Some _, None => True
  | None, Some _ => False
  | None, None => True
  end.

#[global] Instance date_ge_dec (a b : option string) : Decision (date_ge a b).
Proof. destruct a, b; simpl; apply _. Defined.

Definition reference_runtime : Runtime :=
  {| Timestamp := string;
     to_datetime := reference_to_datetime;
     strftime := λ t, t;
     sort_values_desc := λ A key, merge_sort (λ a b, date_ge (key a) (key b));
     sort_values_desc_perm := λ A key,
       merge_sort_Permutation (λ a b, date_ge (key a) (key b));
     set_iter := elements;
     set_iter_perm := λ X, reflexivity (elements X);
     today := "2024-11-05" |}.

(** ** Notions the properties are stated with *)

(** The canonical pair a sponsorship row stands for in the graph builder:
    it has one when it is a Cosponsor row of a bill of the filtered set that
    has a primary sponsor. *)
Definition row_pair (valid_bills : gset string)
    (primary_sponsors : gmap string string) (row : Sponsors.row)
    : option (string * string) :=
  if decide (Sponsors.bill_number row ∈ valid_bills
             ∧ Sponsors.sponsor_type row = "Cosponsor")
  then (λ primary_sponsor,
          sorted_pair primary_sponsor (Sponsors.bioguide_id row))
         <$> primary_sponsors !! Sponsors.bill_number row
  else None.

(** The qualifying (bill, cosponsor) occurrences of a pair: the sponsorship
    rows that stand for it, over the whole filtered bill set. *)
Definition occurrences (bill_sponsors_df : list Sponsors.row)
    (bills_df : list Bills.row) (pair : string * string)
    : list Sponsors.row :=
  filter
    (λ row, row_pair (dom (bill_info_of bills_df))
              (primary_sponsors_of bill_sponsors_df) row = Some pair)
    bill_sponsors_df.

(** The global count of a pair, as the counting pass leaves it in
    [collaboration_counts] (a [defaultdict(int)]: 0 for an absent key). *)
Definition global_count (bill_sponsors_df : list Sponsors.row)
    (bills_df : list Bills.row) (pair : string * string) : nat :=
  default 0%nat
    (collaboration_counts_of (dom (bill_info_of bills_df))
       (primary_sponsors_of bill_sponsors_df) bill_sponsors_df !! pair).

(** The Collaboration records of a pair *)
Definition records_of (pair : string * string)
    (collaborations : list Collaboration) : list Collaboration :=
  filter (λ c, (source c, target c) = pair) collaborations.

(** The record the emitting pass builds from a cosponsor row *)
Definition row_record (bill_info : gmap string BillInfo)
    (pair : string * string) (row : Sponsors.row) : option Collaboration :=
  (λ bill_data,
     {| source := pair.1;
        target := pair.2;
        bill_number := Sponsors.bill_number row;
        congress := info_congress bill_data;
        title := info_title bill_data;
        latest_action := info_latest_action_text bill_data;
        action_date := info_latest_action_date bill_data;
        relationship := "Primary-Cosponsor" |})
    <$> bill_info !! Sponsors.bill_number row.

(** What one sponsorship row contributes to the output *)
Definition row_collaborations (bill_sponsors_df : list Sponsors.row)
    (bills_df : list Bills.row) (row : Sponsors.row) : list Collaboration :=
  match row_pair (dom (bill_info_of bills_df))
          (primary_sponsors_of bill_sponsors_df) row with
  | Some key =>
      if decide (min_collaborations
                 ≤ global_count bill_sponsors_df bills_df key)%nat
      then option_list (row_record (bill_info_of bills_df) key row)
      else []
  | None => []
  end.

(** The rows that list member [x] as a cosponsor of a bill of the filtered
    set whose primary sponsor is [x] itself *)
Definition self_rows (bill_sponsors_df : list Sponsors.row)
    (bills_df : list Bills.row) (x : string) : list Sponsors.row :=
  filter
    (λ row, Sponsors.bill_number row ∈ dom (bill_info_of bills_df)
            ∧ Sponsors.sponsor_type row = "Cosponsor"
            ∧ Sponsors.bioguide_id row = x
            ∧ primary_sponsors_of bill_sponsors_df !! Sponsors.bill_number row
              = Some x)
    bill_sponsors_df.

(** ** Example inputs *)

Definition district_12 : exact_int := {| int_value := 12; int_exact := I |}.
Definition district_0 : exact_int := {| int_value := 0; int_exact := I |}.
Definition district_sentinel : exact_int :=
  {| int_value := -1; int_exact := I |}.

Definition bill_row (bill_number : string) (congress : Z)
    (latest_action_date : option string) : BillsCsv.row :=
  {| BillsCsv.bill_number := bill_number;
     BillsCsv.congress := congress;
     BillsCsv.title := "An Act";
     BillsCsv.latest_action_date := latest_action_date;
     BillsCsv.latest_action_text := "Referred to committee";
     BillsCsv.origin_chamber := "House" |}.

Definition sponsor_row (bill_number bioguide_id sponsor_type : string)
    : Sponsors.row :=
  {| Sponsors.bill_number := bill_number;
     Sponsors.bioguide_id := bioguide_id;
     Sponsors.sponsor_type := sponsor_type |}.

Definition legislator_row (bioguide_id : string)
    (district : option exact_int) (party : option string)
    : LegislatorsCsv.row :=
  {| LegislatorsCsv.bioguide_id := bioguide_id;
     LegislatorsCsv.first_name := "Pat";
     LegislatorsCsv.last_name := "Doe";
     LegislatorsCsv.state := "CA";
     LegislatorsCsv.district := district;
     LegislatorsCsv.party := party |}.

(** [bills_df] of the bills of a CSV table, as [load_and_clean_data] builds
    it when no policy is given *)
Definition cleaned_bills (bills_csv : list BillsCsv.row) : list Bills.row :=
  (load_and_clean_data reference_runtime bills_csv [] [] [] [] None).1.1.1.

Definition two_bills : list BillsCsv.row :=
  [bill_row "B1" 117 (Some "2021-01-02"); bill_row "B2" 117 (Some "2021-03-02")].

Definition one_bill : list BillsCsv.row :=
  [bill_row "B1" 117 (Some "2021-01-02")].

(** the end-to-end example: P1 sponsors B1 and B2, P2 cosponsors both *)
Definition shared_sponsors : list Sponsors.row :=
  [sponsor_row "B1" "P1" "Primary"; sponsor_row "B1" "P2" "Cosponsor";
   sponsor_row "B2" "P1" "Primary"; sponsor_row "B2" "P2" "Cosponsor"].

(** the negative example: the same without B2 *)
Definition single_sponsors : list Sponsors.row :=
  [sponsor_row "B1" "P1" "Primary"; sponsor_row "B1" "P2" "Cosponsor"].

(** P1 is listed as a cosponsor of its own two bills *)
Definition self_sponsors : list Sponsors.row :=
  [sponsor_row "B1" "P1" "Primary"; sponsor_row "B1" "P1" "Cosponsor";
   sponsor_row "B2" "P1" "Primary"; sponsor_row "B2" "P1" "Cosponsor"].

(** the cosponsor row of B1 appears twice *)
Definition duplicate_sponsors : list Sponsors.row :=
  [sponsor_row "B1" "P1" "Primary"; sponsor_row "B1" "P2" "Cosponsor";
   sponsor_row "B1" "P2" "Cosponsor"].

Definition two_legislators : list LegislatorsCsv.row :=
  [legislator_row "P1" (Some district_12) (Some "D");
   legislator_row "P2" None None].

(** a bill whose latest action date is missing *)
Definition undated_bill : list BillsCsv.row := [bill_row "B1" 117 None].

(** a member whose district cell holds the sentinel itself *)
Definition sentinel_legislator : list LegislatorsCsv.row :=
  [legislator_row "P3" (Some district_sentinel) (Some "R")].

(** an at-large member: district 0 *)
Definition at_large_legislator : list LegislatorsCsv.row :=
  [legislator_row "P1" (Some district_0) (Some "D")].

(** one policy, linked to B2 only; B1 has no policy link *)
Definition one_policy : list Policies.row :=
  [{| Policies.policy_id := 7; Policies.name := Some "Health" |}].

Definition one_link : list Links.row :=
  [{| Links.bill_number := "B2"; Links.policy_id := 7 |}].

(** B1 has two Primary rows; B2 has a cosponsor and no Primary row *)
Definition contested_sponsors : list Sponsors.row :=
  [sponsor_row "B1" "P1" "Primary"; sponsor_row "B1" "P3" "Primary";
   sponsor_row "B1" "P2" "Cosponsor"; sponsor_row "B2" "P2" "Cosponsor"].

(** one dated and one undated bill *)
Definition mixed_bills : list BillsCsv.row :=
  [bill_row "B1" 117 (Some "2021-01-02"); bill_row "B2" 118 None].

(** a bill of an earlier congress only *)
Definition old_bill : list BillsCsv.row := [bill_row "B0" 116 None].

(** two policies linked to B1 *)
Definition two_policies : list Policies.row :=
  [{| Policies.policy_id := 7; Policies.name := Some "Health" |};
   {| Policies.policy_id := 8; Policies.name := Some "Taxation" |}].

Definition two_links : list Links.row :=
  [{| Links.bill_number := "B1"; Links.policy_id := 7 |};
   {| Links.bill_number := "B1"; Links.policy_id := 8 |}].

(** P2 sponsors B1 and B2 and P1 cosponsors both: the primary sponsor is
    the greater of the two ids *)
Definition swapped_sponsors : list Sponsors.row :=
  [sponsor_row "B1" "P2" "Primary"; sponsor_row "B1" "P1" "Cosponsor";
   sponsor_row "B2" "P2" "Primary"; sponsor_row "B2" "P1" "Cosponsor"].

(** ** Notions for the metrics *)

(** [sum(d.values())] *)
Definition sum_values `{Countable K} {V : Type} (f : V → nat)
    (d : gmap K V) : nat :=
  map_fold (λ _ v acc, (f v + acc)%nat) 0%nat d.

(** the party the aggregator files an endpoint under *)
Definition party_of (party_lookup : gmap string string) (x : string)
    : string :=
  default "O" (party_lookup !! x).

(** how many times an id is an endpoint of a record: a record with both
    endpoints equal to the id counts twice *)
Definition endpoint_count (x : string) (cs : list Collaboration) : nat :=
  (length (filter (λ c, source c = x) cs)
   + length (filter (λ c, target c = x) cs))%nat.

(** the same, restricted to the records whose other endpoint is filed
    under [party] *)
Definition party_endpoint_count (party_lookup : gmap string string)
    (x party : string) (cs : list Collaboration) : nat :=
  (length (filter (λ c, source c = x
                        ∧ party_of party_lookup (target c) = party) cs)
   + length (filter (λ c, target c = x
                          ∧ party_of party_lookup (source c) = party) cs))%nat.

(** the records in which an id appears as source or target *)
Definition records_with (x : string) (cs : list Collaboration)
    : list Collaboration :=
  filter (λ c, source c = x ∨ target c = x) cs.

(** the increments the aggregator performs: for each record, one for the
    source filed under the target's party, then one for the target filed
    under the source's party *)
Definition endpoint_events (party_lookup : gmap string string)
    (cs : list Collaboration) : list (string * string) :=
  cs ≫= λ c, [ (source c, party_of party_lookup (target c));
               (target c, party_of party_lookup (source c)) ].

(** one increment: the total of [who], then its bucket [party] *)
Definition bump (stats : gmap string Metrics) (e : string * string)
    : gmap string Metrics :=
  add_party e.1 e.2 (add_total e.1 stats).

(** ** The graph builder of the specification

    Section 4.4 of the specification, read row by row.  A Cosponsor row of
    a bill of the filtered set that has a primary sponsor forms a pair with
    that sponsor, unless it names the sponsor itself: a pair requires two
    distinct ids.  The count of a pair is the number of rows forming it,
    over the whole table; a pair is significant when its count reaches the
    threshold, which is a run parameter; and the output has one record for
    each row whose pair is significant, with the metadata of the row's
    bill.  Which Primary row gives the primary sponsor of a bill with
    several, and which frame row gives the metadata of a bill number, the
    specification leaves to the implementation: they are taken from
    [primary_sponsors_of] and [bill_info_of]. *)

Definition spec_pair (valid_bills : gset string)
    (primary_sponsors : gmap string string) (row : Sponsors.row)
    : option (string * string) :=
  if decide (Sponsors.bill_number row ∈ valid_bills
             ∧ Sponsors.sponsor_type row = "Cosponsor")
  then primary_sponsors !! Sponsors.bill_number row ≫= λ primary_sponsor,
         if decide (primary_sponsor = Sponsors.bioguide_id row) then None
         else Some (sorted_pair primary_sponsor (Sponsors.bioguide_id row))
  else None.

Definition spec_count (bill_sponsors_df : list Sponsors.row)
    (bills_df : list Bills.row) (pair : string * string) : nat :=
  length
    (filter
       (λ row, spec_pair (dom (bill_info_of bills_df))
                 (primary_sponsors_of bill_sponsors_df) row = Some pair)
       bill_sponsors_df).

Definition spec_collaborations (threshold : nat)
    (bill_sponsors_df : list Sponsors.row) (bills_df : list Bills.row)
    : list Collaboration :=
  bill_sponsors_df ≫= λ row,
    match spec_pair (dom (bill_info_of bills_df))
            (primary_sponsors_of bill_sponsors_df) row with
    | Some key =>
        if decide (threshold ≤ spec_count bill_sponsors_df bills_df key)%nat
        then option_list (row_record (bill_info_of bills_df) key row)
        else []
    | None => []
    end.

(** ** [convert_to_serializable]

    The objects the function meets: numpy scalars of the kinds it tests
    for, Python natives, containers, and any other object (a numpy scalar
    of another kind, a set, a timestamp), which it returns as it is.
    [F] is the type of floating-point values, which the function only
    moves from one wrapper to the other.  Dictionary keys are strings, as
    in the documents of the pipeline; the function never touches keys. *)

#[warnings="-register-all"] Inductive pyobj (F : Type) : Type :=
  | NpInt (z : Z)                       (* np.int64, int32, int16, int8 *)
  | NpFloat (x : F)                     (* np.float64, float32, float16 *)
  | NpBool (b : bool)                   (* np.bool_ *)
  | PyInt (z : Z)
  | PyFloat (x : F)
  | PyBool (b : bool)
  | PyStr (s : string)
  | PyNone
  | PyDict (items : list (string * pyobj F))
  | PyList (elems : list (pyobj F))
  | PyTuple (elems : list (pyobj F))
  | PyOther (repr : string).
Arguments NpInt {F} z.
Arguments NpFloat {F} x.
Arguments NpBool {F} b.
Arguments PyInt {F} z.
Arguments PyFloat {F} x.
Arguments PyBool {F} b.
Arguments PyStr {F} s.
Arguments PyNone {F}.
Arguments PyDict {F} items.
Arguments PyList {F} elems.
Arguments PyTuple {F} elems.
Arguments PyOther {F} repr.

Fixpoint convert_to_serializable {F : Type} (obj : pyobj F) : pyobj F :=
  match obj with
  | NpInt z => PyInt z
  | NpFloat x => PyFloat x
  | PyDict items =>
      PyDict (map (λ kv, let '(key, value) := kv in
                         (key, convert_to_serializable value)) items)
  | PyList elems => PyList (map convert_to_serializable elems)
  | PyTuple elems => PyList (map convert_to_serializable elems)
  | NpBool b => PyBool b
  | _ => obj
  end.

(** no numpy integer, float or boolean of the tested kinds and no tuple,
    at any depth *)
Fixpoint serializable {F : Type} (obj : pyobj F) : bool :=
  match obj with
  | NpInt _ | NpFloat _ | NpBool _ | PyTuple _ => false
  | PyDict items =>
      forallb (λ kv, let '(_, value) := kv in serializable value) items
  | PyList elems => forallb serializable elems
  | _ => true
  end.

(** the keys of a dictionary and of the dictionaries inside it, in order *)
Fixpoint all_keys {F : Type} (obj : pyobj F) : list string :=
  match obj with
  | PyDict items =>
      flat_map (λ kv, let '(key, value) := kv in key :: all_keys value) items
  | PyList elems | PyTuple elems => flat_map all_keys elems
  | _ => []
  end.

(** a nested document with numpy values, as the pipeline may hand over *)
Definition numpy_document : pyobj Z :=
  PyDict [("congress_range", PyDict [("start", NpInt 117); ("end", NpInt 118)]);
          ("flags", PyTuple [NpBool true; PyNone; NpFloat 5]);
          ("name", PyStr "snapshot")].


(** * Properties *)

(** ** The order on identifiers *)

Lemma ltb_irrefl (a : string) : String.ltb a a = false.
Proof.
  unfold String.ltb. pose proof (String.compare_antisym a a) as H.
  destruct (String.compare a a); simpl in H; congruence.
Qed.

Lemma ltb_asym (a b : string) : String.ltb a b = true → String.ltb b a = false.
Proof.
  unfold String.ltb. rewrite (String.compare_antisym a b).
  destruct (String.compare b a); simpl; congruence.
Qed.

Lemma ltb_total (a b : string) :
  String.ltb a b = false → String.ltb b a = false → a = b.
Proof.
  unfold String.ltb. intros Hab Hba.
  apply String.compare_eq_iff.
  rewrite (String.compare_antisym b a) in Hba.
  destruct (String.compare a b); simpl in *; congruence.
Qed.

Lemma sorted_pair_comm (a b : string) : sorted_pair a b = sorted_pair b a.
Proof.
  unfold sorted_pair.
  destruct (String.ltb b a) eqn:Hba, (String.ltb a b) eqn:Hab; try done.
  - apply ltb_asym in Hba. congruence.
  - by rewrite (ltb_total a b).
Qed.

Lemma sorted_pair_ordered (a b : string) :
  String.ltb (sorted_pair a b).2 (sorted_pair a b).1 = false.
Proof.
  unfold sorted_pair. destruct (String.ltb b a) eqn:Hba; simpl; [|done].
  by apply ltb_asym.
Qed.

Lemma sorted_pair_elems (a b : string) :
  sorted_pair a b = (a, b) ∨ sorted_pair a b = (b, a).
Proof. unfold sorted_pair. destruct (String.ltb b a); auto. Qed.

Lemma sorted_pair_diag (a b : string) :
  (sorted_pair a b).1 = (sorted_pair a b).2 ↔ a = b.
Proof.
  destruct (sorted_pair_elems a b) as [-> | ->]; simpl; split; congruence.
Qed.

Lemma sorted_pair_inj (p a b : string) :
  sorted_pair p a = sorted_pair p b → a = b.
Proof.
  destruct (sorted_pair_elems p a) as [-> | ->],
           (sorted_pair_elems p b) as [-> | ->]; congruence.
Qed.

(** ** Counting with a [defaultdict(int)] *)

Section incr.
Context `{Countable K}.
Implicit Types (d : gmap K nat) (k : K) (ks : list K).

Lemma incr_lookup d k k' :
  default 0%nat (incr k d !! k') =
  (default 0%nat (d !! k') + if decide (k = k') then 1 else 0)%nat.
Proof.
  unfold incr. rewrite lookup_insert. destruct (decide (k = k')) as [->|].
  - simpl. lia.
  - simpl. lia.
Qed.

Lemma incr_is_Some d k k' :
  is_Some (incr k d !! k') ↔ k = k' ∨ is_Some (d !! k').
Proof.
  unfold incr. rewrite lookup_insert. destruct (decide (k = k')).
  - split; eauto.
  - split; [auto | by intros [|]].
Qed.

Lemma incr_positive d k k' n :
  (∀ j m, d !! j = Some m → (0 < m)%nat) →
  incr k d !! k' = Some n → (0 < n)%nat.
Proof.
  intros Hd. unfold incr. rewrite lookup_insert.
  destruct (decide (k = k')); [intros [= <-]; lia | apply Hd].
Qed.

Lemma foldl_incr_lookup ks d k :
  default 0%nat (foldl (λ d x, incr x d) d ks !! k) =
  (default 0%nat (d !! k) + length (filter (λ x, x = k) ks))%nat.
Proof.
  revert d. induction ks as [|x ks IH]; intros d; simpl; [lia|].
  rewrite IH, incr_lookup, filter_cons.
  destruct (decide (x = k)); simpl; lia.
Qed.

Lemma foldl_incr_positive ks d k n :
  (∀ j m, d !! j = Some m → (0 < m)%nat) →
  foldl (λ d x, incr x d) d ks !! k = Some n → (0 < n)%nat.
Proof.
  revert d. induction ks as [|x ks IH]; intros d Hd; simpl; [apply Hd|].
  apply IH. intros j m. by apply incr_positive.
Qed.

Lemma foldl_incr_is_Some ks k :
  is_Some (foldl (λ d x, incr x d) (∅ : gmap K nat) ks !! k) ↔ k ∈ ks.
Proof.
  assert (∀ d, is_Some (foldl (λ d x, incr x d) d ks !! k)
               ↔ k ∈ ks ∨ is_Some (d !! k)) as Hgen.
  { induction ks as [|x ks IH]; intros d; simpl.
    - rewrite elem_of_nil. naive_solver.
    - rewrite IH, incr_is_Some, elem_of_cons. naive_solver. }
  rewrite Hgen, lookup_empty. split; [intros [|[? [=]]]; done | auto].
Qed.

End incr.


(** ** Lists: filters, binds and splitting a frame by key *)

Section list_facts.
Context {A : Type}.

Lemma filter_disjoint_app (P Q : A → Prop)
    `{∀ x, Decision (P x)} `{∀ x, Decision (Q x)} (l : list A) :
  (∀ x, P x → Q x → False) →
  filter P l ++ filter Q l ≡ₚ filter (λ x, P x ∨ Q x) l.
Proof.
  intros Hdisj. induction l as [|x l IH]; [done|].
  rewrite !filter_cons.
  destruct (decide (P x)) as [HP|HP], (decide (Q x)) as [HQ|HQ].
  - destruct (Hdisj x HP HQ).
  - rewrite decide_True by auto. simpl. by rewrite IH.
  - rewrite decide_True by auto.
    rewrite <- Permutation_middle. by rewrite IH.
  - rewrite decide_False by tauto. done.
Qed.

(** Visiting the keys one by one and taking the rows of each key visits
    every row of a listed key once. *)
Lemma bind_filter_key {K : Type} `{EqDecision K} (key : A → K)
    (ks : list K) (l : list A) :
  NoDup ks →
  ks ≫= (λ k, filter (λ x, key x = k) l) ≡ₚ filter (λ x, key x ∈ ks) l.
Proof.
  induction 1 as [|k ks Hk Hks IH].
  - simpl. rewrite (list_filter_iff _ (λ _, False)).
    + by induction l.
    + intros x. rewrite elem_of_nil. tauto.
  - rewrite bind_cons, IH.
    rewrite filter_disjoint_app.
    + rewrite (list_filter_iff _ (λ x, key x ∈ k :: ks)); [done|].
      intros x. rewrite elem_of_cons. tauto.
    + intros x -> ?. done.
Qed.

Lemma omap_bind {B C : Type} (f : B → option C) (g : A → list B)
    (l : list A) :
  omap f (l ≫= g) = l ≫= (λ x, omap f (g x)).
Proof.
  induction l as [|x l IH]; [done|].
  by rewrite !bind_cons, omap_app, IH.
Qed.

Lemma bind_ext_in {B : Type} (f g : A → list B) (l : list A) :
  (∀ x, x ∈ l → f x = g x) → l ≫= f = l ≫= g.
Proof.
  induction l as [|x l IH]; intros Hfg; [done|].
  rewrite !bind_cons, Hfg, IH; [done| |]; set_solver.
Qed.

Lemma omap_ext_in {B : Type} (f g : A → option B) (l : list A) :
  (∀ x, x ∈ l → f x = g x) → omap f l = omap g l.
Proof.
  induction l as [|x l IH]; intros Hfg; [done|].
  simpl. rewrite Hfg by set_solver.
  destruct (g x); [f_equal|]; apply IH; set_solver.
Qed.

Lemma omap_filter {B : Type} (P : A → Prop) `{∀ x, Decision (P x)}
    (f : A → option B) (l : list A) :
  omap f (filter P l) = omap (λ x, if decide (P x) then f x else None) l.
Proof.
  induction l as [|x l IH]; [done|].
  rewrite filter_cons. destruct (decide (P x)) as [HP|HP].
  - simpl. rewrite decide_True by done. destruct (f x); [f_equal|]; apply IH.
  - simpl. rewrite decide_False by done. apply IH.
Qed.

Lemma bind_filter {B : Type} (P : A → Prop) `{∀ x, Decision (P x)}
    (f : A → list B) (l : list A) :
  filter P l ≫= f = l ≫= (λ x, if decide (P x) then f x else []).
Proof.
  induction l as [|x l IH]; [done|].
  rewrite filter_cons, bind_cons.
  destruct (decide (P x)); [rewrite bind_cons|]; by rewrite IH.
Qed.

Lemma bind_bind {B C : Type} (f : A → list B) (g : B → list C)
    (l : list A) :
  (l ≫= f) ≫= g = l ≫= (λ x, f x ≫= g).
Proof.
  induction l as [|x l IH]; [done|].
  by rewrite !bind_cons, bind_app, IH.
Qed.

Lemma filter_bind {B : Type} (P : B → Prop) `{∀ y, Decision (P y)}
    (f : A → list B) (l : list A) :
  filter P (l ≫= f) = l ≫= (λ x, filter P (f x)).
Proof.
  induction l as [|x l IH]; [done|].
  by rewrite !bind_cons, filter_app, IH.
Qed.

Lemma filter_all_in (P : A → Prop) `{∀ x, Decision (P x)} (l : list A) :
  (∀ x, x ∈ l → P x) → filter P l = l.
Proof.
  induction l as [|x l IH]; intros HP; [done|].
  rewrite filter_cons, decide_True, IH; [done| |]; set_solver.
Qed.

Lemma length_bind {B : Type} (f : A → list B) (l : list A) :
  length (l ≫= f) = sum_list (length ∘ f <$> l).
Proof.
  induction l as [|x l IH]; [done|].
  rewrite bind_cons, length_app, IH. done.
Qed.

End list_facts.

(** ** [groupby] *)

Lemma groupby_bill_number_rows (df : list Sponsors.row) :
  groupby_bill_number df ≫= snd ≡ₚ df.
Proof.
  unfold groupby_bill_number.
  set (ks := merge_sort _ _).
  assert (ks ≡ₚ remove_dups (Sponsors.bill_number <$> df)) as Hks
    by apply merge_sort_Permutation.
  transitivity (ks ≫= λ k, filter (λ row, Sponsors.bill_number row = k) df).
  { clear Hks. induction ks as [|k ks IH]; [done|].
    rewrite fmap_cons, !bind_cons. simpl. by rewrite IH. }
  rewrite bind_filter_key.
  - rewrite filter_all_in; [done|]. intros row Hrow.
    rewrite Hks, elem_of_remove_dups. apply list_elem_of_fmap. eauto.
  - rewrite Hks. apply NoDup_remove_dups.
Qed.

Lemma groupby_bill_number_key (df : list Sponsors.row) g row :
  g ∈ groupby_bill_number df → row ∈ g.2 → Sponsors.bill_number row = g.1.
Proof.
  unfold groupby_bill_number. intros (k & -> & _)%list_elem_of_fmap.
  simpl. by intros [? _]%list_elem_of_filter.
Qed.


(** ** The counting pass *)

Lemma count_cosponsors_pairs primary_sponsor cosponsors counts :
  count_cosponsors primary_sponsor cosponsors counts =
  foldl (λ d x, incr x d) counts (sorted_pair primary_sponsor <$> cosponsors).
Proof. unfold count_cosponsors. by rewrite foldl_fmap. Qed.

(** The pairs of the sponsorship rows, in any order in which the counting
    pass may meet them *)
Lemma counting_pass_pairs valid_bills primary_sponsors bill_sponsors_df :
  ∃ pairs,
    collaboration_counts_of valid_bills primary_sponsors bill_sponsors_df
    = foldl (λ d x, incr x d) ∅ pairs
    ∧ pairs ≡ₚ omap (row_pair valid_bills primary_sponsors) bill_sponsors_df.
Proof.
  unfold collaboration_counts_of.
  set (df := filter _ bill_sponsors_df).
  set (h := λ row : Sponsors.row,
         (λ ps, sorted_pair ps (Sponsors.bioguide_id row))
           <$> primary_sponsors !! Sponsors.bill_number row).
  exists (omap h (groupby_bill_number df ≫= snd)). split.
  - pose proof (groupby_bill_number_key df) as Hkey.
    generalize (∅ : gmap (string * string) nat).
    induction (groupby_bill_number df) as [|g gs IH]; intros d; [done|].
    rewrite bind_cons, omap_app, foldl_app. simpl.
    rewrite <- IH by (intros; apply Hkey; set_solver).
    f_equal.
    assert (∀ row, row ∈ g.2 → h row =
              (λ ps, sorted_pair ps (Sponsors.bioguide_id row))
                <$> primary_sponsors !! g.1) as Hh.
    { intros row Hrow. unfold h. by rewrite (Hkey g row) by set_solver. }
    rewrite (omap_ext_in _ _ _ Hh).
    destruct (primary_sponsors !! g.1) as [ps|]; simpl.
    + rewrite count_cosponsors_pairs. f_equal.
      rewrite <- list_fmap_compose. clear. induction (g.2) as [|r l IH]; [done|].
      simpl. by f_equal.
    + clear. by induction (g.2).
  - rewrite groupby_bill_number_rows. unfold df.
    rewrite omap_filter. apply reflexive_eq, omap_ext_in.
    intros row _. unfold row_pair, h. by destruct (decide _).
Qed.

Lemma length_filter_omap {A B : Type} `{EqDecision B}
    (f : A → option B) (y : B) (l : list A) :
  length (filter (λ z, z = y) (omap f l))
  = length (filter (λ x, f x = Some y) l).
Proof.
  induction l as [|x l IH]; [done|].
  rewrite filter_cons.
  change (omap f (x :: l))
    with (match f x with Some z => z :: omap f l | None => omap f l end).
  destruct (f x) as [z|].
  - rewrite filter_cons. destruct (decide (z = y)) as [->|Hz].
    + rewrite decide_True by done. cbn [length]. by rewrite IH.
    + rewrite decide_False by congruence. done.
  - rewrite decide_False by done. done.
Qed.

(** The counter of a pair is the number of rows that stand for it. *)
Lemma global_count_occurrences bill_sponsors_df bills_df pair :
  global_count bill_sponsors_df bills_df pair
  = length (occurrences bill_sponsors_df bills_df pair).
Proof.
  unfold global_count, occurrences.
  destruct (counting_pass_pairs (dom (bill_info_of bills_df))
              (primary_sponsors_of bill_sponsors_df) bill_sponsors_df)
    as (pairs & -> & Hperm).
  rewrite foldl_incr_lookup, lookup_empty. simpl.
  rewrite Hperm. apply length_filter_omap.
Qed.

(** A key of [collaboration_counts] has a positive counter. *)
Lemma collaboration_counts_positive valid_bills primary_sponsors df pair n :
  collaboration_counts_of valid_bills primary_sponsors df !! pair = Some n →
  (0 < n)%nat.
Proof.
  destruct (counting_pass_pairs valid_bills primary_sponsors df)
    as (pairs & -> & _).
  apply foldl_incr_positive. intros j m. by rewrite lookup_empty.
Qed.

(** [pair in significant_pairs] *)
Lemma significant_pairs_lookup bill_sponsors_df bills_df pair :
  is_Some
    (significant_pairs_of
       (collaboration_counts_of (dom (bill_info_of bills_df))
          (primary_sponsors_of bill_sponsors_df) bill_sponsors_df) !! pair)
  ↔ (min_collaborations ≤ global_count bill_sponsors_df bills_df pair)%nat.
Proof.
  unfold significant_pairs_of, global_count.
  set (counts := collaboration_counts_of _ _ _).
  split.
  - intros [n [Hn Hle]%map_lookup_filter_Some]. by rewrite Hn.
  - intros Hle. destruct (counts !! pair) as [n|] eqn:Hn.
    + exists n. by apply map_lookup_filter_Some.
    + simpl in Hle. unfold min_collaborations in Hle. lia.
Qed.

(** ** The emitting pass *)

Lemma bill_info_valid_bills bills_df bill_number :
  bill_number ∈ dom (bill_info_of bills_df) →
  is_Some (bill_info_of bills_df !! bill_number).
Proof. by intros ?%elem_of_dom. Qed.

(** The output is, up to the order in which the set of bills is visited,
    what the sponsorship rows contribute one by one. *)
Lemma process_collaborations_rows rt bill_sponsors_df bills_df :
  process_collaborations rt bill_sponsors_df bills_df
  ≡ₚ bill_sponsors_df ≫= row_collaborations bill_sponsors_df bills_df.
Proof.
  unfold process_collaborations.
  set (I := bill_info_of bills_df).
  set (P := primary_sponsors_of bill_sponsors_df).
  set (ks := set_iter rt (dom I)).
  assert (NoDup ks) as Hnodup.
  { unfold ks. rewrite set_iter_perm. apply NoDup_elements. }
  assert (∀ b, b ∈ ks ↔ b ∈ dom I) as Hks.
  { intros b. unfold ks. rewrite set_iter_perm. apply elem_of_elements. }
  transitivity
    (ks ≫= λ b, filter (λ row, Sponsors.bill_number row = b) bill_sponsors_df
                ≫= row_collaborations bill_sponsors_df bills_df).
  { apply reflexive_eq, bind_ext_in. intros b Hb%Hks.
    rewrite bind_filter.
    assert (∀ row, Sponsors.bill_number row = b →
              row_pair (dom I) P row =
              if decide (Sponsors.sponsor_type row = "Cosponsor")
              then (λ ps, sorted_pair ps (Sponsors.bioguide_id row))
                     <$> P !! b
              else None) as Hpair.
    { intros row <-. unfold row_pair.
      destruct (decide (Sponsors.sponsor_type row = "Cosponsor")).
      - by rewrite decide_True.
      - by rewrite decide_False by tauto. }
    destruct (bill_info_valid_bills bills_df b Hb) as [data Hdata].
    fold I in Hdata. rewrite Hdata.
    destruct (P !! b) as [ps|] eqn:HP.
    - unfold bill_collaborations.
      rewrite list_fmap_bind, bind_filter.
      apply bind_ext_in. intros row _. simpl.
      destruct (decide (Sponsors.bill_number row = b)) as [Hb'|Hb'].
      + unfold row_collaborations. fold I P. rewrite (Hpair row Hb').
        destruct (decide (Sponsors.sponsor_type row = "Cosponsor")).
        * rewrite decide_True by done. simpl.
          unfold row_record. rewrite Hb', Hdata. simpl.
          destruct (decide (is_Some _)) as [Hs|Hs];
            unfold I, P in Hs; rewrite significant_pairs_lookup in Hs.
          -- by rewrite decide_True.
          -- by rewrite decide_False.
        * by rewrite decide_False by tauto.
      + by rewrite decide_False by tauto.
    - symmetry. clear Hdata.
      induction bill_sponsors_df as [|row l IH]; [done|].
      rewrite bind_cons.
      assert (∀ l', (l' ≫= λ x, if decide (Sponsors.bill_number x = b)
                then row_collaborations (row :: l) bills_df x else [])
               = []) as Hnil.
      { intros l'. induction l' as [|x l' IH']; [done|].
        rewrite bind_cons, IH'. destruct (decide _) as [Hx|]; [|done].
        unfold row_collaborations. fold I P. rewrite (Hpair x Hx).
        destruct (decide _); by simpl. }
      rewrite Hnil. destruct (decide _) as [Hx|]; [|done].
      unfold row_collaborations. fold I P. rewrite (Hpair row Hx).
      destruct (decide _); by simpl. }
  rewrite <- bind_bind, (bind_filter_key Sponsors.bill_number) by done.
  rewrite bind_filter. apply reflexive_eq, bind_ext_in. intros row _.
  destruct (decide _) as [|Hrow]; [done|].
  unfold row_collaborations, row_pair. fold I.
  rewrite decide_False; [done|]. rewrite <- Hks. tauto.
Qed.


Lemma omap_option_list_bind {A B : Type} (f : A → option B) (l : list A) :
  omap f l = l ≫= (λ x, option_list (f x)).
Proof.
  induction l as [|x l IH]; [done|].
  rewrite bind_cons, <- IH. simpl. by destruct (f x).
Qed.

Lemma row_record_pair bill_info pair row c :
  row_record bill_info pair row = Some c → (source c, target c) = pair.
Proof.
  unfold row_record. destruct (bill_info !! _); intros [= <-]; simpl.
  by destruct pair.
Qed.

Lemma row_record_bill_number bill_info pair row c :
  row_record bill_info pair row = Some c →
  bill_number c = Sponsors.bill_number row.
Proof. unfold row_record. by destruct (bill_info !! _); intros [= <-]. Qed.

Lemma row_pair_valid valid_bills primary_sponsors row pair :
  row_pair valid_bills primary_sponsors row = Some pair →
  Sponsors.bill_number row ∈ valid_bills
  ∧ Sponsors.sponsor_type row = "Cosponsor"
  ∧ ∃ primary_sponsor,
      primary_sponsors !! Sponsors.bill_number row = Some primary_sponsor
      ∧ pair = sorted_pair primary_sponsor (Sponsors.bioguide_id row).
Proof.
  unfold row_pair. destruct (decide _) as [[??]|]; [|done].
  destruct (primary_sponsors !! _) as [ps|]; [|done].
  intros [= <-]. eauto.
Qed.

(** An occurrence has a record: its bill is a key of [bill_info]. *)
Lemma occurrence_record bill_sponsors_df bills_df pair row :
  row ∈ occurrences bill_sponsors_df bills_df pair →
  is_Some (row_record (bill_info_of bills_df) pair row).
Proof.
  unfold occurrences. intros [Hrow _]%list_elem_of_filter.
  apply row_pair_valid in Hrow as (Hvalid%bill_info_valid_bills & _).
  unfold row_record. destruct Hvalid as [data ->]. by eexists.
Qed.

(** The records of a pair are, up to order, the records of its occurrences
    when the pair is significant, and none otherwise. *)
Lemma records_of_process_collaborations rt bill_sponsors_df bills_df pair :
  records_of pair (process_collaborations rt bill_sponsors_df bills_df)
  ≡ₚ if decide (min_collaborations
                ≤ global_count bill_sponsors_df bills_df pair)%nat
     then omap (row_record (bill_info_of bills_df) pair)
            (occurrences bill_sponsors_df bills_df pair)
     else [].
Proof.
  unfold records_of. rewrite process_collaborations_rows, filter_bind.
  set (Q := λ c : Collaboration, (source c, target c) = pair).
  assert (∀ key row,
            filter Q (option_list (row_record (bill_info_of bills_df) key row))
            = if decide (key = pair)
              then option_list (row_record (bill_info_of bills_df) key row)
              else []) as HQ.
  { intros key row.
    destruct (row_record _ key row) as [c|] eqn:Hc; simpl.
    - apply row_record_pair in Hc. rewrite filter_cons, filter_nil.
      unfold Q. rewrite Hc. by destruct (decide (key = pair)).
    - by destruct (decide _). }
  destruct (decide (min_collaborations ≤ _)%nat) as [Hn|Hn].
  - unfold occurrences. rewrite omap_filter, omap_option_list_bind.
    apply reflexive_eq, bind_ext_in. intros row _.
    unfold row_collaborations.
    destruct (row_pair _ _ row) as [key|]; [|by rewrite decide_False].
    destruct (decide (key = pair)) as [->|Hkey].
    + rewrite !decide_True by done. rewrite HQ. by rewrite decide_True.
    + rewrite (decide_False (P := Some key = Some pair)) by congruence.
      destruct (decide _); [|done]. rewrite HQ. by rewrite decide_False.
  - apply reflexive_eq.
    induction bill_sponsors_df as [|row l IH] in Hn |- *; [done|].
    assert (∀ l', l' ≫= (λ x, filter Q (row_collaborations (row :: l) bills_df x))
                  = []) as Hnil; [|apply Hnil].
    intros l'. induction l' as [|x l' IH']; [done|].
    rewrite bind_cons, IH'. unfold row_collaborations.
    destruct (row_pair _ _ x) as [key|]; [|done].
    destruct (decide _) as [Hkey|]; [|done].
    rewrite HQ. destruct (decide (key = pair)) as [->|]; done.
Qed.

Lemma length_omap_is_Some {A B : Type} (f : A → option B) (l : list A) :
  (∀ x, x ∈ l → is_Some (f x)) → length (omap f l) = length l.
Proof.
  induction l as [|x l IH]; intros Hf; [done|].
  destruct (Hf x) as [y Hy]; [set_solver|].
  change (omap f (x :: l))
    with (match f x with Some z => z :: omap f l | None => omap f l end).
  rewrite Hy. simpl. rewrite IH; [done|set_solver].
Qed.

Lemma fmap_Some_omap {A B : Type} (f : A → option B) (l : list A) :
  (∀ x, x ∈ l → is_Some (f x)) → Some <$> omap f l = f <$> l.
Proof.
  induction l as [|x l IH]; intros Hf; [done|].
  destruct (Hf x) as [y Hy]; [set_solver|].
  change (omap f (x :: l))
    with (match f x with Some z => z :: omap f l | None => omap f l end).
  rewrite Hy, !fmap_cons, Hy, IH; [done|set_solver].
Qed.

(** The bill info of a bill number is that of a row of the frame. *)
Lemma bill_info_of_lookup bills_df bill_number data :
  bill_info_of bills_df !! bill_number = Some data →
  ∃ row, row ∈ bills_df ∧ Bills.bill_number row = bill_number
         ∧ data = {| info_congress := Bills.congress row;
                     info_title := Bills.title row;
                     info_latest_action_text := Bills.latest_action_text row;
                     info_latest_action_date := Bills.latest_action_date row |}.
Proof.
  unfold bill_info_of.
  induction bills_df as [|row l IH] using rev_ind.
  - simpl. by rewrite lookup_empty.
  - rewrite foldl_snoc, lookup_insert.
    destruct (decide (Bills.bill_number row = bill_number)) as [Hb|Hb].
    + intros [= <-]. exists row. set_solver.
    + intros (r & ? & ?)%IH. exists r. set_solver.
Qed.

(** C1: the counter of a pair is the number of its qualifying
    (bill, cosponsor) occurrences over the whole filtered bill set; a pair
    of count exactly 1 has no record; a pair of count at least 2 has exactly
    the records built from its occurrences, one for each; and every record
    carries the number and the metadata of a row of the bill frame. *)
Theorem threshold_global (rt : Runtime)
    (bill_sponsors_df : list Sponsors.row) (bills_df : list Bills.row)
    (pair : string * string) :
  let n := global_count bill_sponsors_df bills_df pair in
  let rows := occurrences bill_sponsors_df bills_df pair in
  let out := process_collaborations rt bill_sponsors_df bills_df in
  n = length rows
  ∧ (n = 1%nat → records_of pair out = [])
  ∧ ((2 ≤ n)%nat →
       length (records_of pair out) = length rows
       ∧ Some <$> records_of pair out
         ≡ₚ row_record (bill_info_of bills_df) pair <$> rows)
  ∧ (∀ c, c ∈ out →
       ∃ row, row ∈ bills_df
              ∧ Bills.bill_number row = bill_number c
              ∧ congress c = Bills.congress row
              ∧ title c = Bills.title row
              ∧ latest_action c = Bills.latest_action_text row
              ∧ action_date c = Bills.latest_action_date row).
Proof.
  intros n rows out.
  pose proof (records_of_process_collaborations rt bill_sponsors_df bills_df
                pair) as Hrec.
  fold n out in Hrec. unfold min_collaborations in Hrec.
  split; [apply global_count_occurrences|]. split; [|split].
  - intros Hn. rewrite decide_False in Hrec by lia.
    by apply Permutation_nil_r.
  - intros Hn. rewrite decide_True in Hrec by done.
    assert (∀ row, row ∈ rows →
              is_Some (row_record (bill_info_of bills_df) pair row)) as Hsome
      by apply occurrence_record.
    split.
    + by rewrite Hrec, length_omap_is_Some.
    + by rewrite Hrec, fmap_Some_omap.
  - intros c Hc. unfold out in Hc.
    rewrite process_collaborations_rows in Hc.
    apply list_elem_of_bind in Hc as (srow & Hc & _).
    unfold row_collaborations in Hc.
    destruct (row_pair _ _ srow) as [key|]; [|by apply elem_of_nil in Hc].
    destruct (decide (min_collaborations ≤ _)%nat);
      [|by apply elem_of_nil in Hc].
    unfold row_record in Hc.
    destruct (bill_info_of bills_df !! _) as [data|] eqn:Hdata;
      [|by apply elem_of_nil in Hc].
    apply list_elem_of_singleton in Hc as ->. simpl.
    apply bill_info_of_lookup in Hdata as (row & ? & ? & ->).
    exists row. done.
Qed.


Lemma threshold_global_witness :
  records_of ("P1", "P2")
    (process_collaborations reference_runtime single_sponsors
       (cleaned_bills one_bill)) = []
  ∧ length (records_of ("P1", "P2")
              (process_collaborations reference_runtime shared_sponsors
                 (cleaned_bills two_bills))) = 2%nat.
Proof.
  split.
  - apply (threshold_global reference_runtime single_sponsors
             (cleaned_bills one_bill) ("P1", "P2")).
    vm_compute. reflexivity.
  - destruct (threshold_global reference_runtime shared_sponsors
                (cleaned_bills two_bills) ("P1", "P2"))
      as (_ & _ & Hge & _).
    destruct Hge as [Hlen _]; [vm_compute; lia|].
    rewrite Hlen. vm_compute. reflexivity.
Defined.

(** ** Where a record comes from *)

Lemma collaboration_origin rt bill_sponsors_df bills_df c :
  c ∈ process_collaborations rt bill_sponsors_df bills_df →
  ∃ row pair,
    row ∈ bill_sponsors_df
    ∧ row_pair (dom (bill_info_of bills_df))
        (primary_sponsors_of bill_sponsors_df) row = Some pair
    ∧ (min_collaborations ≤ global_count bill_sponsors_df bills_df pair)%nat
    ∧ row_record (bill_info_of bills_df) pair row = Some c.
Proof.
  rewrite process_collaborations_rows.
  intros (row & Hc & Hrow)%list_elem_of_bind.
  unfold row_collaborations in Hc.
  destruct (row_pair _ _ row) as [key|] eqn:Hkey;
    [|by apply elem_of_nil in Hc].
  destruct (decide (min_collaborations ≤ _)%nat);
    [|by apply elem_of_nil in Hc].
  destruct (row_record _ key row) as [c'|] eqn:Hrec;
    [|by apply elem_of_nil in Hc].
  apply list_elem_of_singleton in Hc as ->. eauto 10.
Qed.

Lemma collaboration_ordered rt bill_sponsors_df bills_df c :
  c ∈ process_collaborations rt bill_sponsors_df bills_df →
  String.ltb (target c) (source c) = false.
Proof.
  intros (row & pair & _ & Hpair & _ & Hc)%collaboration_origin.
  apply row_pair_valid in Hpair as (_ & _ & ps & _ & ->).
  apply row_record_pair in Hc.
  pose proof (sorted_pair_ordered ps (Sponsors.bioguide_id row)) as Hord.
  by rewrite <- Hc in Hord.
Qed.

(** C2: the pair key of (A, B) is that of (B, A), and it is the two ids
    themselves with the smaller first; no two records hold one unordered
    pair in opposite orientations unless both endpoints are equal; and
    every record comes from a Cosponsor row of its bill, its source being
    the smaller and its target the larger of that bill's primary sponsor
    and the member of that row. *)
Theorem canonical_pair (rt : Runtime)
    (bill_sponsors_df : list Sponsors.row) (bills_df : list Bills.row) :
  let out := process_collaborations rt bill_sponsors_df bills_df in
  (∀ a b : string, sorted_pair a b = sorted_pair b a)
  ∧ (∀ a b : string,
       (sorted_pair a b = (a, b) ∨ sorted_pair a b = (b, a))
       ∧ String.ltb (sorted_pair a b).2 (sorted_pair a b).1 = false)
  ∧ (∀ c1 c2, c1 ∈ out → c2 ∈ out →
       source c1 = target c2 → target c1 = source c2 →
       (source c1, target c1) = (source c2, target c2))
  ∧ (∀ c, c ∈ out →
       String.ltb (target c) (source c) = false
       ∧ ∃ row primary_sponsor,
           row ∈ bill_sponsors_df
           ∧ Sponsors.bill_number row = bill_number c
           ∧ Sponsors.sponsor_type row = "Cosponsor"
           ∧ primary_sponsors_of bill_sponsors_df !! bill_number c
             = Some primary_sponsor
           ∧ ((source c = primary_sponsor
               ∧ target c = Sponsors.bioguide_id row)
              ∨ (source c = Sponsors.bioguide_id row
                 ∧ target c = primary_sponsor))).
Proof.
  intros out. split; [apply sorted_pair_comm|]. split; [|split].
  - intros a b. split; [apply sorted_pair_elems|apply sorted_pair_ordered].
  - intros c1 c2 H1%collaboration_ordered H2%collaboration_ordered Hst Hts.
    rewrite <- Hst, <- Hts in H2.
    assert (source c1 = target c1) as Heq by by apply ltb_total.
    congruence.
  - intros c Hc. split; [by eapply collaboration_ordered|].
    apply collaboration_origin in Hc as (row & pair & Hrow & Hpair & _ & Hc).
    apply row_pair_valid in Hpair as (_ & Htype & ps & Hps & ->).
    pose proof (row_record_bill_number _ _ _ _ Hc) as Hb.
    apply row_record_pair in Hc.
    exists row, ps. rewrite Hb. split_and!; try done.
    destruct (sorted_pair_elems ps (Sponsors.bioguide_id row)) as [He|He];
      rewrite He in Hc; injection Hc as -> ->; auto.
Qed.

(** On [swapped_sponsors] the primary sponsor P2 is above the cosponsor P1:
    every record has P1 as source and P2 as target. *)
Lemma canonical_pair_witness :
  Forall (λ c, source c = "P1" ∧ target c = "P2")
    (process_collaborations reference_runtime swapped_sponsors
       (cleaned_bills two_bills)).
Proof.
  apply Forall_forall. intros c Hc.
  destruct (canonical_pair reference_runtime swapped_sponsors
              (cleaned_bills two_bills)) as (_ & _ & _ & Hrecords).
  destruct (Hrecords c Hc)
    as (Hord & row & ps & Hrow & Hb & Htype & Hps & Hends).
  assert (Sponsors.bioguide_id row = "P1" ∧ ps = "P2") as [Hid ->].
  { rewrite <- Hb in Hps. clear Hb Hends Hord Hc.
    unfold swapped_sponsors in Hrow.
    repeat (apply elem_of_cons in Hrow as [->|Hrow]);
      [| | | |by apply elem_of_nil in Hrow]; try discriminate Htype;
      vm_compute in Hps; by injection Hps as <-. }
  rewrite Hid in Hends.
  destruct Hends as [[Hs Ht]|[Hs Ht]]; [|done].
  rewrite Hs, Ht in Hord. vm_compute in Hord. discriminate Hord.
Defined.


(** decide a closed, decidable proposition by evaluation *)
Ltac by_compute :=
  match goal with
  | |- ?P => apply (bool_decide_unpack P); vm_compute; exact I
  end.

(** ** Self-pairs *)

(** C5, as stated, fails: a primary sponsor listed as cosponsor of two of
    its bills gives the pair (P1, P1) the count 2, and both records are
    emitted with equal endpoints. *)
Lemma self_pair_counterexample :
  global_count self_sponsors (cleaned_bills two_bills) ("P1", "P1") = 2%nat
  ∧ length (process_collaborations reference_runtime self_sponsors
              (cleaned_bills two_bills)) = 2%nat
  ∧ Forall (λ c, source c = "P1" ∧ target c = "P1")
      (process_collaborations reference_runtime self_sponsors
         (cleaned_bills two_bills)).
Proof.
  split; [by vm_compute|]. split; [by vm_compute|].
  vm_compute. repeat constructor.
Qed.

Lemma occurrences_self bill_sponsors_df bills_df x :
  occurrences bill_sponsors_df bills_df (x, x)
  = self_rows bill_sponsors_df bills_df x.
Proof.
  unfold occurrences, self_rows. apply list_filter_iff. intros row. split.
  - intros (Hvalid & Htype & ps & Hps & Heq)%row_pair_valid.
    destruct (sorted_pair_elems ps (Sponsors.bioguide_id row)) as [He|He];
      rewrite He in Heq; injection Heq as -> ->; by rewrite Hps.
  - intros (Hvalid & Htype & Hid & Hps). unfold row_pair.
    rewrite decide_True by done. rewrite Hps, Hid. simpl.
    unfold sorted_pair. by rewrite ltb_irrefl.
Qed.

(** C5, amended: a cosponsor row naming the primary sponsor of its own
    bill is counted like any other row, for the pair of that member with
    itself: the counter of the pair (X, X) is the number of such rows;
    when it reaches 2 each of them is emitted as a record with source and
    target X, and below 2 none is.  A record has equal endpoints exactly
    when the row it comes from names the bill's primary sponsor, so a
    record from any other cosponsor has distinct endpoints. *)
Theorem self_pair_amended (rt : Runtime)
    (bill_sponsors_df : list Sponsors.row) (bills_df : list Bills.row) :
  let out := process_collaborations rt bill_sponsors_df bills_df in
  let primary_sponsors := primary_sponsors_of bill_sponsors_df in
  (∀ x,
     let rows := self_rows bill_sponsors_df bills_df x in
     global_count bill_sponsors_df bills_df (x, x) = length rows
     ∧ ((2 ≤ length rows)%nat →
        length (records_of (x, x) out) = length rows
        ∧ Forall (λ row, ∃ c, c ∈ out
                              ∧ source c = x ∧ target c = x
                              ∧ bill_number c = Sponsors.bill_number row)
            rows)
     ∧ ((length rows < 2)%nat → records_of (x, x) out = []))
  ∧ (∀ c, c ∈ out →
       ∃ row primary_sponsor,
         row ∈ bill_sponsors_df
         ∧ Sponsors.bill_number row = bill_number c
         ∧ Sponsors.sponsor_type row = "Cosponsor"
         ∧ primary_sponsors !! bill_number c = Some primary_sponsor
         ∧ (source c, target c)
           = sorted_pair primary_sponsor (Sponsors.bioguide_id row)
         ∧ (source c = target c
            ↔ Sponsors.bioguide_id row = primary_sponsor)).
Proof.
  intros out primary_sponsors. split.
  - intros x rows.
    pose proof (records_of_process_collaborations rt bill_sponsors_df
                  bills_df (x, x)) as Hrec.
    pose proof (global_count_occurrences bill_sponsors_df bills_df (x, x))
      as Hcount.
    assert (∀ row, row ∈ rows →
              is_Some (row_record (bill_info_of bills_df) (x, x) row))
      as Hsome.
    { intros row Hrow. apply (occurrence_record bill_sponsors_df).
      by rewrite occurrences_self. }
    rewrite occurrences_self in Hrec, Hcount. fold rows out in Hrec, Hcount.
    rewrite Hcount in Hrec. unfold min_collaborations in Hrec.
    split; [done|]. split.
    + intros Hge. rewrite decide_True in Hrec by done. split.
      * by rewrite Hrec, length_omap_is_Some.
      * apply Forall_forall. intros row Hrow.
        destruct (Hsome row Hrow) as [c Hc]. exists c.
        assert (c ∈ records_of (x, x) out) as Hin.
        { rewrite Hrec. apply list_elem_of_omap. eauto. }
        apply list_elem_of_filter in Hin as [Hpair Hin].
        injection Hpair as Hs Ht.
        split_and!; try done.
        by apply (row_record_bill_number _ _ _ _ Hc).
    + intros Hlt. rewrite decide_False in Hrec by lia.
      by apply Permutation_nil_r.
  - intros c (row & pair & Hrow & Hpair & _ & Hc)%collaboration_origin.
    apply row_pair_valid in Hpair as (_ & Htype & ps & Hps & ->).
    pose proof (row_record_bill_number _ _ _ _ Hc) as Hb.
    apply row_record_pair in Hc.
    exists row, ps. rewrite Hb. split_and!; try done.
    pose proof (sorted_pair_diag ps (Sponsors.bioguide_id row)) as Hdiag.
    rewrite <- Hc in Hdiag. simpl in Hdiag. rewrite Hdiag.
    split; congruence.
Qed.

Lemma self_pair_amended_witness :
  length (records_of ("P1", "P1")
            (process_collaborations reference_runtime self_sponsors
               (cleaned_bills two_bills))) = 2%nat.
Proof.
  destruct (self_pair_amended reference_runtime self_sponsors
              (cleaned_bills two_bills)) as [Hself _].
  destruct (Hself "P1") as (_ & Hemit & _).
  destruct Hemit as [Hlen _]; [vm_compute; lia|].
  rewrite Hlen. by vm_compute.
Defined.

(** ** Duplicate cosponsor rows *)

Lemma filter_omap_key {A B K : Type} `{EqDecision K}
    (f : A → option B) (ka : A → K) (kb : B → K) (k : K) (l : list A) :
  (∀ x y, f x = Some y → kb y = ka x) →
  filter (λ y, kb y = k) (omap f l) = omap f (filter (λ x, ka x = k) l).
Proof.
  intros Hf. induction l as [|x l IH]; [done|].
  rewrite filter_cons.
  change (omap f (x :: l))
    with (match f x with Some z => z :: omap f l | None => omap f l end).
  destruct (f x) as [y|] eqn:Hy.
  - rewrite filter_cons, (Hf x y Hy).
    destruct (decide (ka x = k)).
    + change (omap f (x :: filter (λ x, ka x = k) l))
        with (match f x with
              | Some z => z :: omap f (filter (λ x, ka x = k) l)
              | None => omap f (filter (λ x, ka x = k) l)
              end).
      by rewrite Hy, IH.
    + done.
  - destruct (decide (ka x = k)); [|done].
    change (omap f (x :: filter (λ x, ka x = k) l))
      with (match f x with
            | Some z => z :: omap f (filter (λ x, ka x = k) l)
            | None => omap f (filter (λ x, ka x = k) l)
            end).
    by rewrite Hy.
Qed.

(** The occurrences of a row's pair on the row's bill are the copies of the
    row. *)
Lemma occurrences_on_bill bill_sponsors_df bills_df row primary_sponsor :
  Sponsors.sponsor_type row = "Cosponsor" →
  Sponsors.bill_number row ∈ dom (bill_info_of bills_df) →
  primary_sponsors_of bill_sponsors_df !! Sponsors.bill_number row
  = Some primary_sponsor →
  filter (λ r, Sponsors.bill_number r = Sponsors.bill_number row)
    (occurrences bill_sponsors_df bills_df
       (sorted_pair primary_sponsor (Sponsors.bioguide_id row)))
  = filter (λ r, r = row) bill_sponsors_df.
Proof.
  intros Htype Hvalid Hps. unfold occurrences.
  rewrite list_filter_filter. apply list_filter_iff. intros r. split.
  - intros [Hb Hpair]. apply row_pair_valid in Hpair as (_ & Ht & ps & Hps' & Heq).
    rewrite Hb, Hps in Hps'. injection Hps' as <-.
    apply sorted_pair_inj in Heq.
    destruct r, row; simpl in *; congruence.
  - intros ->. split; [done|].
    unfold row_pair. rewrite decide_True by done. by rewrite Hps.
Qed.

(** C10: a cosponsor row of a bill of the filtered set with a primary
    sponsor, present k times in the sponsorship table, adds k to the counter
    of its pair, on top of what the other bills add; and when the pair is
    significant, exactly k records of that pair carry that bill. *)
Theorem duplicate_rows_counted (rt : Runtime)
    (bill_sponsors_df : list Sponsors.row) (bills_df : list Bills.row)
    (row : Sponsors.row) (primary_sponsor : string) :
  Sponsors.sponsor_type row = "Cosponsor" →
  Sponsors.bill_number row ∈ dom (bill_info_of bills_df) →
  primary_sponsors_of bill_sponsors_df !! Sponsors.bill_number row
  = Some primary_sponsor →
  let pair := sorted_pair primary_sponsor (Sponsors.bioguide_id row) in
  let k := length (filter (λ r, r = row) bill_sponsors_df) in
  let on_bill := λ r, Sponsors.bill_number r = Sponsors.bill_number row in
  let out := process_collaborations rt bill_sponsors_df bills_df in
  global_count bill_sponsors_df bills_df pair
  = (k + length (filter (λ r, ¬ on_bill r)
                   (occurrences bill_sponsors_df bills_df pair)))%nat
  ∧ ((min_collaborations ≤ global_count bill_sponsors_df bills_df pair)%nat →
     length (filter (λ c, bill_number c = Sponsors.bill_number row)
               (records_of pair out)) = k).
Proof.
  intros Htype Hvalid Hps pair k on_bill out.
  pose proof (occurrences_on_bill bill_sponsors_df bills_df row
                primary_sponsor Htype Hvalid Hps) as Hocc.
  fold pair in Hocc. split.
  - rewrite global_count_occurrences. unfold k. rewrite <- Hocc.
    generalize (occurrences bill_sponsors_df bills_df pair). intros l.
    induction l as [|r l IH]; [done|].
    rewrite !filter_cons. unfold on_bill at 1.
    destruct (decide (Sponsors.bill_number r = _)) as [Hr|Hr].
    + rewrite decide_False by tauto. simpl. by rewrite IH.
    + rewrite decide_True by done. simpl. rewrite IH. lia.
  - intros Hsig. unfold out.
    rewrite records_of_process_collaborations, decide_True by done.
    rewrite (filter_omap_key _ Sponsors.bill_number)
      by apply row_record_bill_number.
    rewrite Hocc, length_omap_is_Some; [done|].
    intros r [-> Hr]%list_elem_of_filter.
    apply (occurrence_record bill_sponsors_df bills_df pair).
    unfold occurrences. apply list_elem_of_filter. split; [|done].
    unfold row_pair. rewrite decide_True by done. by rewrite Hps.
Qed.

Lemma duplicate_rows_counted_witness :
  global_count duplicate_sponsors (cleaned_bills one_bill) ("P1", "P2")
  = 2%nat
  ∧ length (filter (λ c, bill_number c = "B1")
              (records_of ("P1", "P2")
                 (process_collaborations reference_runtime duplicate_sponsors
                    (cleaned_bills one_bill)))) = 2%nat.
Proof.
  destruct (duplicate_rows_counted reference_runtime duplicate_sponsors
              (cleaned_bills one_bill) (sponsor_row "B1" "P2" "Cosponsor")
              "P1") as [Hcount Hrec].
  - reflexivity.
  - by_compute.
  - by vm_compute.
  - split.
    + by vm_compute.
    + apply Hrec. vm_compute. lia.
Defined.


(** ** Sums over a dictionary *)

Section sum_values.
Context `{Countable K} {V : Type} (f : V → nat).
Implicit Types (d : gmap K V).

Lemma sum_values_empty : sum_values f (∅ : gmap K V) = 0%nat.
Proof. unfold sum_values. apply map_fold_empty. Qed.

Lemma sum_values_delete d k v :
  d !! k = Some v → sum_values f d = (f v + sum_values f (delete k d))%nat.
Proof.
  intros Hk. unfold sum_values.
  apply (map_fold_delete_L (λ _ v acc, (f v + acc)%nat)); [|done].
  intros. lia.
Qed.

Lemma sum_values_insert d k v :
  sum_values f (<[k := v]> d) = (f v + sum_values f (delete k d))%nat.
Proof.
  rewrite <- insert_delete_eq. unfold sum_values.
  apply (map_fold_insert_L (λ _ v acc, (f v + acc)%nat)).
  - intros. lia.
  - apply lookup_delete_eq.
Qed.

Lemma sum_values_insert_lookup d k v :
  (sum_values f (<[k := v]> d) + from_option f 0%nat (d !! k))%nat
  = (f v + sum_values f d)%nat.
Proof.
  rewrite sum_values_insert.
  destruct (d !! k) as [w|] eqn:Hk; simpl.
  - rewrite (sum_values_delete d k w Hk). lia.
  - rewrite delete_id by done. lia.
Qed.

End sum_values.

Lemma sum_values_incr `{Countable K} (d : gmap K nat) (k : K) :
  sum_values id (incr k d) = S (sum_values id d).
Proof.
  unfold incr.
  pose proof (sum_values_insert_lookup id d k (S (default 0%nat (d !! k))))
    as Hsum.
  destruct (d !! k); simpl in *; lia.
Qed.

(** ** The aggregator, increment by increment *)

Lemma bump_lookup stats e x :
  bump stats e !! x =
  if decide (e.1 = x) then
    let s := default default_stats (stats !! x) in
    Some {| primary_count := primary_count s;
            cosponsor_count := cosponsor_count s;
            total_collaborations := S (total_collaborations s);
            party_collaborations := incr e.2 (party_collaborations s) |}
  else stats !! x.
Proof.
  unfold bump, add_party, add_total.
  rewrite lookup_insert_eq. simpl. rewrite lookup_insert.
  destruct (decide (e.1 = x)) as [->|]; [done|].
  by rewrite lookup_insert_ne.
Qed.

Lemma calculate_sponsor_stats_events legislators cs :
  calculate_sponsor_stats legislators cs
  = foldl bump ∅ (endpoint_events (party_lookup_of legislators) cs).
Proof.
  unfold calculate_sponsor_stats, endpoint_events.
  generalize (∅ : gmap string Metrics).
  induction cs as [|c cs IH]; intros stats; [done|].
  rewrite bind_cons, foldl_app. simpl. by rewrite IH.
Qed.

Lemma foldl_bump_lookup (evs : list (string * string)) (x : string) :
  let stats := foldl bump ∅ evs in
  let m := default default_stats (stats !! x) in
  total_collaborations m = length (filter (λ e, e.1 = x) evs)
  ∧ sum_values id (party_collaborations m) = total_collaborations m
  ∧ (∀ p, default 0%nat (party_collaborations m !! p)
          = length (filter (λ e, e = (x, p)) evs))
  ∧ primary_count m = 0%nat
  ∧ cosponsor_count m = 0%nat
  ∧ (is_Some (stats !! x) ↔ x ∈ evs.*1).
Proof.
  induction evs as [|e evs IH] using rev_ind.
  - simpl. rewrite lookup_empty. simpl.
    split_and!; try done.
    split; [by intros [? [=]] | by intros ?%elem_of_nil].
  - simpl in IH. destruct IH as (Htot & Hsum & Hparty & Hpc & Hcc & Hdom).
    cbv zeta. rewrite foldl_snoc, bump_lookup.
    rewrite !filter_app, !length_app, fmap_app, elem_of_app.
    rewrite !filter_cons, !filter_nil. simpl.
    destruct (decide (e.1 = x)) as [He|He]; simpl.
    + split_and!; try done.
      * lia.
      * rewrite sum_values_incr. lia.
      * intros p. rewrite incr_lookup, Hparty.
        rewrite filter_app, length_app, filter_cons, filter_nil.
        destruct e as [w q]; simpl in *; subst w.
        destruct (decide (q = p)) as [->|Hq].
        -- rewrite decide_True by done. done.
        -- rewrite decide_False by congruence. done.
      * split; [intros _|by eauto]. right. rewrite He. set_solver.
    + split_and!; try done.
      * lia.
      * intros p. rewrite Hparty.
        rewrite filter_app, length_app, filter_cons, filter_nil.
        rewrite decide_False; [simpl; lia|]. intros ->. done.
      * rewrite Hdom. split; [tauto|]. intros [|Hx]; [done|].
        apply list_elem_of_singleton in Hx. congruence.
Qed.

Lemma endpoint_events_count party_lookup cs x :
  length (filter (λ e, e.1 = x) (endpoint_events party_lookup cs))
  = endpoint_count x cs.
Proof.
  unfold endpoint_events, endpoint_count.
  induction cs as [|c cs IH]; [done|].
  rewrite bind_cons, filter_app, length_app, IH, !(filter_cons _ c).
  rewrite !filter_cons, filter_nil. simpl.
  destruct (decide (source c = x)), (decide (target c = x)); simpl; lia.
Qed.

Lemma endpoint_events_party_count party_lookup cs x p :
  length (filter (λ e, e = (x, p)) (endpoint_events party_lookup cs))
  = party_endpoint_count party_lookup x p cs.
Proof.
  unfold endpoint_events, party_endpoint_count.
  induction cs as [|c cs IH]; [done|].
  rewrite bind_cons, filter_app, length_app, IH, !(filter_cons _ c).
  rewrite !filter_cons, filter_nil.
  destruct (decide ((source c, party_of party_lookup (target c)) = (x, p)))
    as [[= Hs Hp]|Hn1];
  destruct (decide ((target c, party_of party_lookup (source c)) = (x, p)))
    as [[= Ht Hq]|Hn2].
  - rewrite !decide_True by done. simpl. lia.
  - rewrite decide_True by done.
    rewrite (decide_False (P := target c = x ∧ _)); [simpl; lia|].
    intros [??]. apply Hn2. congruence.
  - rewrite decide_False; [rewrite decide_True by done; simpl; lia|].
    intros [??]. apply Hn1. congruence.
  - rewrite !decide_False; [simpl; lia| |].
    + intros [??]. apply Hn2. congruence.
    + intros [??]. apply Hn1. congruence.
Qed.

Lemma endpoint_events_ids party_lookup cs x :
  x ∈ (endpoint_events party_lookup cs).*1
  ↔ ∃ c, c ∈ cs ∧ (source c = x ∨ target c = x).
Proof.
  unfold endpoint_events. rewrite list_elem_of_fmap. split.
  - intros (e & -> & (c & He & Hc)%list_elem_of_bind).
    exists c. split; [done|].
    apply elem_of_cons in He as [->|He]; [by left|].
    apply list_elem_of_singleton in He as ->. by right.
  - intros (c & Hc & [<-|<-]).
    + exists (source c, party_of party_lookup (target c)). split; [done|].
      apply list_elem_of_bind. exists c. split; [|done]. set_solver.
    + exists (target c, party_of party_lookup (source c)). split; [done|].
      apply list_elem_of_bind. exists c. split; [|done]. set_solver.
Qed.

(** The metrics of an id, read off the records *)
Lemma calculate_sponsor_stats_lookup legislators cs x :
  let stats := calculate_sponsor_stats legislators cs in
  let party_lookup := party_lookup_of legislators in
  let m := default default_stats (stats !! x) in
  total_collaborations m = endpoint_count x cs
  ∧ sum_values id (party_collaborations m) = total_collaborations m
  ∧ (∀ p, default 0%nat (party_collaborations m !! p)
          = party_endpoint_count party_lookup x p cs)
  ∧ primary_count m = 0%nat
  ∧ cosponsor_count m = 0%nat
  ∧ (is_Some (stats !! x) ↔ ∃ c, c ∈ cs ∧ (source c = x ∨ target c = x)).
Proof.
  intros stats party_lookup m. unfold m, stats.
  rewrite calculate_sponsor_stats_events. fold party_lookup.
  destruct (foldl_bump_lookup (endpoint_events party_lookup cs) x)
    as (Htot & Hsum & Hparty & Hpc & Hcc & Hdom).
  rewrite endpoint_events_count in Htot.
  rewrite endpoint_events_ids in Hdom.
  split_and!; try done.
  intros p. by rewrite Hparty, endpoint_events_party_count.
Qed.

(** When no record joins an id with itself, counting endpoints is counting
    records. *)
Lemma endpoint_count_records_with x cs :
  (∀ c, c ∈ cs → ¬ (source c = x ∧ target c = x)) →
  endpoint_count x cs = length (records_with x cs).
Proof.
  unfold endpoint_count, records_with.
  induction cs as [|c cs IH]; intros Hself; [done|].
  rewrite !filter_cons.
  assert (¬ (source c = x ∧ target c = x)) as Hc by (apply Hself; set_solver).
  assert (endpoint_count x cs = length (records_with x cs)) as IH'
    by (apply IH; intros; apply Hself; set_solver).
  unfold endpoint_count, records_with in IH'.
  destruct (decide (source c = x)), (decide (target c = x)).
  - tauto.
  - rewrite decide_True by tauto. simpl. lia.
  - rewrite decide_True by tauto. simpl. lia.
  - rewrite decide_False by tauto. done.
Qed.

(** One record is two increments: the totals of all ids add up to twice the
    number of records. *)
Lemma total_collaborations_sum legislators cs :
  sum_values total_collaborations (calculate_sponsor_stats legislators cs)
  = (2 * length cs)%nat.
Proof.
  rewrite calculate_sponsor_stats_events.
  assert (∀ evs, sum_values total_collaborations (foldl bump ∅ evs)
                 = length evs) as Hevs.
  { intros evs. induction evs as [|e evs IH] using rev_ind.
    - apply sum_values_empty.
    - rewrite foldl_snoc, length_app. simpl.
      unfold bump at 1, add_party, add_total.
      rewrite lookup_insert_eq, insert_insert_eq. simpl.
      pose proof (sum_values_insert_lookup total_collaborations
                    (foldl bump ∅ evs) e.1) as Hsum.
      specialize (Hsum
        {| primary_count :=
             primary_count (default default_stats (foldl bump ∅ evs !! e.1));
           cosponsor_count :=
             cosponsor_count (default default_stats (foldl bump ∅ evs !! e.1));
           total_collaborations :=
             S (total_collaborations
                  (default default_stats (foldl bump ∅ evs !! e.1)));
           party_collaborations :=
             incr e.2
               (party_collaborations
                  (default default_stats (foldl bump ∅ evs !! e.1))) |}).
      simpl in Hsum. rewrite IH in Hsum.
      destruct (foldl bump ∅ evs !! e.1); simpl in *; lia. }
  rewrite Hevs. unfold endpoint_events.
  induction cs as [|c cs IH]; [done|].
  rewrite bind_cons, length_app, IH. simpl. lia.
Qed.


(** ** The assembled snapshot *)

Section snapshot.
Context (rt : Runtime)
  (bills_csv : list BillsCsv.row)
  (legislators_csv : list LegislatorsCsv.row)
  (bill_sponsors_csv : list Sponsors.row)
  (bill_policies_csv : list Policies.row)
  (bill_policy_links_csv : list Links.row)
  (target_congress : option Z).

Let bills_df : list Bills.row :=
  (load_and_clean_data rt bills_csv legislators_csv bill_sponsors_csv
     bill_policies_csv bill_policy_links_csv
     (Some (default default_target_congress target_congress))).1.1.1.
Let cs : list Collaboration :=
  process_collaborations rt bill_sponsors_csv bills_df.
Let active : list Legislator.t :=
  filter (λ leg, Legislator.id leg ∈ active_legislators_of cs)
    (create_legislator_nodes (clean_legislator <$> legislators_csv)).

(** What a run that returns has put in the snapshot *)
Lemma prepare_network_data_Ok snap :
  prepare_network_data rt bills_csv legislators_csv bill_sponsors_csv
    bill_policies_csv bill_policy_links_csv target_congress = Ok snap →
  collaborations snap = cs
  ∧ legislators snap = attach_metrics (calculate_sponsor_stats active cs)
                         <$> active
  ∧ bills snap = process_bills bills_df
  ∧ policies_counts (metadata snap) = policy_counts_of (process_bills bills_df)
  ∧ py_min date_lt (Bill.latest_action_date <$> process_bills bills_df)
    = Ok (date_range (metadata snap)).1
  ∧ py_max date_lt (Bill.latest_action_date <$> process_bills bills_df)
    = Ok (date_range (metadata snap)).2.
Proof.
  unfold prepare_network_data. cbv zeta.
  fold bills_df. 
  destruct (py_min int_lt _) as [c0|]; [|done].
  destruct (py_max int_lt _) as [c1|]; [|done].
  destruct (py_min date_lt _) as [d0|] eqn:Hd0; [|done].
  destruct (py_max date_lt _) as [d1|] eqn:Hd1; [|done].
  simpl. intros [= <-]. simpl. done.
Qed.

End snapshot.

Lemma elem_of_active_legislators_of cs x :
  x ∈ active_legislators_of cs
  ↔ ∃ c, c ∈ cs ∧ (source c = x ∨ target c = x).
Proof.
  unfold active_legislators_of.
  induction cs as [|c cs IH] using rev_ind.
  - simpl. split; [set_solver|]. intros (c & Hc%elem_of_nil & _). done.
  - rewrite foldl_snoc, !elem_of_union, !elem_of_singleton, IH. split.
    + intros [->|[->|(c' & Hc' & Hx)]].
      * exists c. split; [set_solver|by right].
      * exists c. split; [set_solver|by left].
      * exists c'. split; [set_solver|done].
    + intros (c' & [Hc'| ->%list_elem_of_singleton]%elem_of_app & Hx).
      * right. right. eauto.
      * destruct Hx as [<-|<-]; auto.
Qed.

Lemma attach_metrics_id metrics leg :
  Legislator.id (attach_metrics metrics leg) = Legislator.id leg.
Proof. unfold attach_metrics. by destruct (metrics !! _). Qed.

Lemma attach_metrics_party metrics leg :
  Legislator.party (attach_metrics metrics leg) = Legislator.party leg.
Proof. unfold attach_metrics. by destruct (metrics !! _). Qed.

Lemma attach_metrics_metrics metrics leg :
  is_Some (metrics !! Legislator.id leg) →
  Legislator.metrics (attach_metrics metrics leg)
  = metrics !! Legislator.id leg.
Proof. unfold attach_metrics. by intros [m ->]. Qed.

Lemma party_lookup_of_attach metrics legislators :
  party_lookup_of (attach_metrics metrics <$> legislators)
  = party_lookup_of legislators.
Proof.
  unfold party_lookup_of. rewrite foldl_fmap.
  generalize (∅ : gmap string string).
  induction legislators as [|leg l IH]; intros d; [done|].
  simpl. by rewrite attach_metrics_id, attach_metrics_party, IH.
Qed.

Lemma create_legislator_nodes_ids legislators_csv :
  Legislator.id <$> create_legislator_nodes (clean_legislator <$> legislators_csv)
  = LegislatorsCsv.bioguide_id <$> legislators_csv.
Proof.
  unfold create_legislator_nodes.
  rewrite <- !list_fmap_compose. by apply list_fmap_ext.
Qed.

(** ** Active-set consistency *)

(** C3, as stated, fails in its second half: P2 cosponsors both bills of
    P1 but has no row in the legislators table; both records name P2 and
    the legislator list of the snapshot does not. *)
Lemma active_set_counterexample :
  match prepare_network_data reference_runtime two_bills
          [legislator_row "P1" (Some district_12) (Some "D")] shared_sponsors [] []
          None with
  | Ok snap =>
      Forall (λ c, target c = "P2") (collaborations snap)
      ∧ length (collaborations snap) = 2%nat
      ∧ Legislator.id <$> legislators snap = ["P1"]
  | Raise _ => False
  end.
Proof. vm_compute. split_and!; [repeat constructor|done|done]. Qed.

(** C3, amended: every legislator of the snapshot is an endpoint of a
    record, and an endpoint of a record is in the legislator list exactly
    when the legislators table has a row for it. *)
Theorem active_set_amended (rt : Runtime)
    (bills_csv : list BillsCsv.row)
    (legislators_csv : list LegislatorsCsv.row)
    (bill_sponsors_csv : list Sponsors.row)
    (bill_policies_csv : list Policies.row)
    (bill_policy_links_csv : list Links.row)
    (target_congress : option Z) (snap : Snapshot) :
  prepare_network_data rt bills_csv legislators_csv bill_sponsors_csv
    bill_policies_csv bill_policy_links_csv target_congress = Ok snap →
  (∀ leg, leg ∈ legislators snap →
     ∃ c, c ∈ collaborations snap
          ∧ (source c = Legislator.id leg ∨ target c = Legislator.id leg))
  ∧ (∀ c x, c ∈ collaborations snap → source c = x ∨ target c = x →
       (x ∈ Legislator.id <$> legislators snap
        ↔ x ∈ LegislatorsCsv.bioguide_id <$> legislators_csv)).
Proof.
  intros (Hcs & Hlegs & _)%prepare_network_data_Ok.
  cbv zeta in Hcs, Hlegs. rewrite <- Hcs in Hlegs.
  assert (∀ x, x ∈ Legislator.id <$> legislators snap
               ↔ x ∈ LegislatorsCsv.bioguide_id <$> legislators_csv
                 ∧ ∃ c, c ∈ collaborations snap
                        ∧ (source c = x ∨ target c = x)) as Hids.
  { intros x. rewrite Hlegs, <- list_fmap_compose.
    rewrite <- create_legislator_nodes_ids, !list_elem_of_fmap.
    split.
    - intros (leg & -> & [Hact Hleg]%list_elem_of_filter). simpl.
      rewrite attach_metrics_id.
      apply elem_of_active_legislators_of in Hact. split; [eauto|done].
    - intros ((leg & -> & Hleg) & Hact). exists leg.
      simpl. rewrite attach_metrics_id. split; [done|].
      apply list_elem_of_filter. split; [|done].
      by apply elem_of_active_legislators_of. }
  split.
  - intros leg Hleg.
    apply (Hids (Legislator.id leg)), list_elem_of_fmap. eauto.
  - intros c x Hc Hx. rewrite Hids. split; [tauto|]. eauto.
Qed.

Lemma active_set_amended_witness :
  ∃ snap,
    prepare_network_data reference_runtime two_bills two_legislators
      shared_sponsors [] [] None = Ok snap
    ∧ ∀ leg, leg ∈ legislators snap →
        ∃ c, c ∈ collaborations snap
             ∧ (source c = Legislator.id leg ∨ target c = Legislator.id leg).
Proof.
  destruct (prepare_network_data reference_runtime two_bills two_legislators
              shared_sponsors [] [] None) as [snap|e] eqn:Hrun.
  - exists snap. split; [reflexivity|].
    apply (active_set_amended reference_runtime two_bills two_legislators
             shared_sponsors [] [] None snap Hrun).
  - exfalso. vm_compute in Hrun. discriminate Hrun.
Defined.


(** ** Metric consistency *)

(** C4, as stated, fails in its first equation: when P1 is listed as
    cosponsor of its own two bills, the two records have P1 at both ends;
    P1 appears in 2 records and its total is 4. *)
Lemma metrics_counterexample :
  match prepare_network_data reference_runtime two_bills two_legislators
          self_sponsors [] [] None with
  | Ok snap =>
      length (records_with "P1" (collaborations snap)) = 2%nat
      ∧ (λ leg, (Legislator.id leg,
                 total_collaborations <$> Legislator.metrics leg))
          <$> legislators snap = [("P1", Some 4%nat)]
  | Raise _ => False
  end.
Proof. by vm_compute. Qed.

(** C4, amended: the total of a legislator is the number of record
    endpoints equal to its id (a record with that id at both ends counts
    twice), which is the number of records naming the id when no record
    joins the id with itself; each bucket counts the endpoints whose other
    end is filed under that party, ["O"] for an unknown one; the buckets
    add up to the total; and the totals of all ids add up to twice the
    number of records. *)
Theorem metrics_amended (rt : Runtime)
    (bills_csv : list BillsCsv.row)
    (legislators_csv : list LegislatorsCsv.row)
    (bill_sponsors_csv : list Sponsors.row)
    (bill_policies_csv : list Policies.row)
    (bill_policy_links_csv : list Links.row)
    (target_congress : option Z) (snap : Snapshot) :
  prepare_network_data rt bills_csv legislators_csv bill_sponsors_csv
    bill_policies_csv bill_policy_links_csv target_congress = Ok snap →
  let cs := collaborations snap in
  let party_lookup := party_lookup_of (legislators snap) in
  (∀ leg, leg ∈ legislators snap →
     ∃ m, Legislator.metrics leg = Some m
          ∧ total_collaborations m = endpoint_count (Legislator.id leg) cs
          ∧ ((∀ c, c ∈ cs → ¬ (source c = Legislator.id leg
                               ∧ target c = Legislator.id leg)) →
             total_collaborations m
             = length (records_with (Legislator.id leg) cs))
          ∧ sum_values id (party_collaborations m) = total_collaborations m
          ∧ ∀ party, default 0%nat (party_collaborations m !! party)
                     = party_endpoint_count party_lookup
                         (Legislator.id leg) party cs)
  ∧ sum_values total_collaborations
      (calculate_sponsor_stats (legislators snap) cs)
    = (2 * length cs)%nat.
Proof.
  intros (Hcs & Hlegs & _)%prepare_network_data_Ok cs party_lookup.
  cbv zeta in Hcs, Hlegs. rewrite <- Hcs in Hlegs. fold cs in Hlegs.
  split; [|apply total_collaborations_sum].
  intros leg Hleg. rewrite Hlegs in Hleg.
  apply list_elem_of_fmap in Hleg as (leg0 & -> & Hleg0).
  apply list_elem_of_filter in Hleg0 as [Hact _].
  apply elem_of_active_legislators_of in Hact.
  unfold party_lookup. rewrite Hlegs, party_lookup_of_attach.
  rewrite attach_metrics_id.
  set (legs := filter _ _).
  destruct (calculate_sponsor_stats_lookup legs cs (Legislator.id leg0))
    as (Htot & Hsum & Hparty & _ & _ & Hdom).
  apply Hdom in Hact as Hsome.
  rewrite attach_metrics_metrics by done.
  destruct Hsome as [m Hm]. rewrite Hm in *. simpl in *.
  exists m. split_and!; try done.
  intros Hself. rewrite Htot. by apply endpoint_count_records_with.
Qed.

Lemma metrics_amended_witness :
  ∃ snap,
    prepare_network_data reference_runtime two_bills two_legislators
      shared_sponsors [] [] None = Ok snap
    ∧ ∀ leg, leg ∈ legislators snap →
        ∃ m, Legislator.metrics leg = Some m
             ∧ total_collaborations m
               = endpoint_count (Legislator.id leg) (collaborations snap)
             ∧ sum_values id (party_collaborations m)
               = total_collaborations m.
Proof.
  destruct (prepare_network_data reference_runtime two_bills two_legislators
              shared_sponsors [] [] None) as [snap|e] eqn:Hrun.
  - exists snap. split; [reflexivity|]. intros leg Hleg.
    destruct (metrics_amended reference_runtime two_bills two_legislators
                shared_sponsors [] [] None snap Hrun) as [Hall _].
    destruct (Hall leg Hleg) as (m & Hm & Htot & _ & Hsum & _).
    exists m. split; [exact Hm|]. split; [exact Htot|exact Hsum].
  - exfalso. vm_compute in Hrun. discriminate Hrun.
Defined.


(** ** [min] and [max] *)

Lemma ltb_lt (a b : string) :
  String.ltb a b = true ↔ OrderedTypeEx.String_as_OT.lt a b.
Proof.
  rewrite <- OrderedTypeEx.String_as_OT.cmp_lt. unfold String.ltb.
  change OrderedTypeEx.String_as_OT.cmp with String.compare.
  destruct (String.compare a b); split; congruence.
Qed.

Lemma ltb_trans (a b c : string) :
  String.ltb a b = true → String.ltb b c = true → String.ltb a c = true.
Proof.
  rewrite !ltb_lt. apply OrderedTypeEx.String_as_OT.lt_trans.
Qed.

(** [a ≤ b] and [b ≤ c] give [a ≤ c], with [x ≤ y] read as [not (y < x)] *)
Lemma leb_trans (a b c : string) :
  String.ltb b a = false → String.ltb c b = false → String.ltb c a = false.
Proof.
  intros Hab Hbc. destruct (String.ltb c a) eqn:Hca; [|done].
  destruct (String.ltb a b) eqn:Hab'.
  - rewrite (ltb_trans c a b) in Hbc; done.
  - rewrite (ltb_total a b) in Hca by done. congruence.
Qed.

Lemma py_min_from_int (candidate : Z) (xs : list Z) :
  ∃ r, py_min_from int_lt candidate xs = Ok r.
Proof.
  revert candidate. induction xs as [|x xs IH]; intros c; simpl; eauto.
Qed.

Lemma py_max_from_int (candidate : Z) (xs : list Z) :
  ∃ r, py_min_from (λ item c, int_lt c item) candidate xs = Ok r.
Proof.
  revert candidate. induction xs as [|x xs IH]; intros c; simpl; eauto.
Qed.

(** [min]/[max] over a column of formatted dates: [lt] is the comparison
    the built-in performs between an item and the candidate, [below] what
    it computes on two strings. *)
Section dates.
Context (lt : option string → option string → result bool)
  (below : string → string → bool).
Hypothesis lt_nan : lt None None = Ok false.
Hypothesis lt_str : ∀ x y, lt (Some x) (Some y) = Ok (below x y).
Hypothesis lt_str_nan : ∀ x, lt (Some x) None = Raise TypeError.
Hypothesis lt_nan_str : ∀ x, lt None (Some x) = Raise TypeError.
Hypothesis below_asym : ∀ x y, below x y = true → below y x = false.
Hypothesis below_trans :
  ∀ x y z, below y x = false → below z y = false → below z x = false.

Lemma py_min_from_nan (xs : list (option string)) :
  Forall (λ d, d = None) xs → py_min_from lt None xs = Ok None.
Proof.
  induction 1 as [|d xs -> _ IH]; [done|].
  simpl. rewrite lt_nan. simpl. done.
Qed.

Lemma py_min_from_str (x : string) (ys : list string) :
  ∃ m, py_min_from lt (Some x) (Some <$> ys) = Ok (Some m)
       ∧ m ∈ x :: ys
       ∧ ∀ y, y ∈ x :: ys → below y m = false.
Proof.
  revert x. induction ys as [|y ys IH]; intros x.
  - exists x. simpl. split; [done|]. split; [set_solver|].
    intros ? ->%list_elem_of_singleton.
    destruct (below x x) eqn:Hxx; [|done]. by rewrite (below_asym x x) in Hxx.
  - rewrite fmap_cons. simpl. rewrite lt_str. simpl.
    destruct (below y x) eqn:Hyx.
    + destruct (IH y) as (m & -> & Hm & Hmin).
      exists m. split; [done|]. split; [set_solver|].
      intros z [Hz|Hz]%elem_of_cons; [|by apply Hmin].
      apply (below_trans m y z); [|rewrite Hz; by apply below_asym].
      apply Hmin. set_solver.
    + destruct (IH x) as (m & -> & Hm & Hmin).
      exists m. split; [done|]. split; [set_solver|].
      intros z [Hz|[Hz|Hz]%elem_of_cons]%elem_of_cons.
      * apply Hmin. set_solver.
      * apply (below_trans m x z); [|by rewrite Hz]. apply Hmin. set_solver.
      * apply Hmin. set_solver.
Qed.

(** A column holding both a date and a missing value makes the built-in
    compare a [str] with a [float]. *)
Lemma py_min_from_mixed (candidate : option string)
    (xs : list (option string)) :
  None ∈ candidate :: xs → (∃ x, Some x ∈ candidate :: xs) →
  py_min_from lt candidate xs = Raise TypeError.
Proof.
  revert candidate. induction xs as [|d xs IH]; intros c Hnan [x Hx].
  - apply list_elem_of_singleton in Hnan, Hx. congruence.
  - simpl. destruct d as [y|], c as [z|].
    + rewrite lt_str. simpl. apply IH.
      * destruct (below y z); set_solver.
      * destruct (below y z); set_solver.
    + by rewrite lt_str_nan.
    + by rewrite lt_nan_str.
    + rewrite lt_nan. simpl. apply IH; set_solver.
Qed.

End dates.

Lemma process_bills_dates bills_df :
  Bill.latest_action_date <$> process_bills bills_df
  = Bills.latest_action_date <$> bills_df.
Proof.
  unfold process_bills. rewrite <- list_fmap_compose. by apply list_fmap_ext.
Qed.

Lemma all_missing_dates (ds : list (option string)) :
  Forall (λ d, d = None) ds → ds ≠ [] →
  py_min date_lt ds = Ok None ∧ py_max date_lt ds = Ok None.
Proof.
  intros Hds Hne. destruct Hds as [|d ds -> Hds]; [done|].
  unfold py_max, py_min. split.
  - by apply py_min_from_nan.
  - by apply (py_min_from_nan (λ item c, date_lt c item)).
Qed.

Lemma all_present_dates (ds : list string) :
  ds ≠ [] →
  ∃ lo hi,
    py_min date_lt (Some <$> ds) = Ok (Some lo)
    ∧ py_max date_lt (Some <$> ds) = Ok (Some hi)
    ∧ lo ∈ ds ∧ hi ∈ ds
    ∧ ∀ d, d ∈ ds → String.ltb d lo = false ∧ String.ltb hi d = false.
Proof.
  intros Hne. destruct ds as [|x ys]; [done|].
  unfold py_max, py_min. rewrite fmap_cons.
  destruct (py_min_from_str date_lt String.ltb eq_refl (λ _ _, eq_refl)
              (λ _, eq_refl) (λ _, eq_refl) ltb_asym leb_trans x ys)
    as (lo & Hlo & Hlo_in & Hlo_min).
  destruct (py_min_from_str (λ item c, date_lt c item)
              (λ a b, String.ltb b a) eq_refl (λ _ _, eq_refl)
              (λ _, eq_refl) (λ _, eq_refl)
              (λ a b, ltb_asym b a) (λ a b c H1 H2, leb_trans c b a H2 H1)
              x ys)
    as (hi & Hhi & Hhi_in & Hhi_max).
  exists lo, hi. split_and!; try done.
  intros d Hd. split; [by apply Hlo_min | by apply Hhi_max].
Qed.


(** ** The date range *)

(** C6, as stated, fails: with one retained bill and no date, the run
    returns a snapshot whose date range is missing at both ends. *)
Lemma date_range_counterexample :
  match prepare_network_data reference_runtime undated_bill [] [] [] []
          None with
  | Ok snap =>
      length (bills snap) = 1%nat
      ∧ date_range (metadata snap) = (None, None)
  | Raise _ => False
  end.
Proof. by vm_compute. Qed.

(** C6, amended: the min/max step does not fail on a non-empty column
    whose dates are all missing: it yields the missing value, and there is
    no "no valid dates" condition.  When the run returns a snapshot, the
    bill list is not empty and the date range is what [min] and [max] give
    on the whole column of formatted dates: the least and the greatest date
    when every bill has one, the missing value at both ends when every date
    is missing. *)
Theorem date_range_amended (rt : Runtime)
    (bills_csv : list BillsCsv.row)
    (legislators_csv : list LegislatorsCsv.row)
    (bill_sponsors_csv : list Sponsors.row)
    (bill_policies_csv : list Policies.row)
    (bill_policy_links_csv : list Links.row)
    (target_congress : option Z) :
  (∀ ds : list (option string),
     ds ≠ [] → Forall (λ d, d = None) ds →
     py_min date_lt ds = Ok None ∧ py_max date_lt ds = Ok None)
  ∧ (∀ snap,
       prepare_network_data rt bills_csv legislators_csv bill_sponsors_csv
         bill_policies_csv bill_policy_links_csv target_congress = Ok snap →
       let dates := Bill.latest_action_date <$> bills snap in
       dates ≠ []
       ∧ py_min date_lt dates = Ok (date_range (metadata snap)).1
       ∧ py_max date_lt dates = Ok (date_range (metadata snap)).2
       ∧ (∀ xs, dates = Some <$> xs →
            ∃ lo hi,
              date_range (metadata snap) = (Some lo, Some hi)
              ∧ lo ∈ xs ∧ hi ∈ xs
              ∧ ∀ d, d ∈ xs →
                  String.ltb d lo = false ∧ String.ltb hi d = false)
       ∧ (Forall (λ d, d = None) dates →
            date_range (metadata snap) = (None, None))).
Proof.
  split.
  - intros ds Hne Hall. by apply all_missing_dates.
  - intros snap (_ & _ & Hbills & _ & Hlo & Hhi)%prepare_network_data_Ok dates.
    cbv zeta in Hbills, Hlo, Hhi. rewrite <- Hbills in Hlo, Hhi.
    fold dates in Hlo, Hhi.
    assert (dates ≠ []) as Hne.
    { intros Hnil. by rewrite Hnil in Hlo. }
    split_and!; try done.
    + intros xs Hxs.
      destruct (all_present_dates xs) as (lo & hi & Hmin & Hmax & Hrest).
      { intros ->. by rewrite Hxs in Hne. }
      exists lo, hi. split; [|done].
      rewrite Hxs, Hmin in Hlo. rewrite Hxs, Hmax in Hhi.
      injection Hlo as Hlo. injection Hhi as Hhi.
      destruct (date_range (metadata snap)). simpl in *. congruence.
    + intros Hall.
      destruct (all_missing_dates dates Hall Hne) as [Hmin Hmax].
      rewrite Hmin in Hlo. rewrite Hmax in Hhi.
      injection Hlo as Hlo. injection Hhi as Hhi.
      destruct (date_range (metadata snap)). simpl in *. congruence.
Qed.

Lemma date_range_amended_witness :
  ∃ snap,
    prepare_network_data reference_runtime undated_bill [] [] [] [] None
    = Ok snap
    ∧ date_range (metadata snap) = (None, None).
Proof.
  destruct (prepare_network_data reference_runtime undated_bill [] [] [] []
              None) as [snap|e] eqn:Hrun.
  - exists snap. split; [reflexivity|].
    destruct (date_range_amended reference_runtime undated_bill [] [] [] []
                None) as [_ Hsnap].
    destruct (Hsnap snap Hrun) as (_ & _ & _ & _ & Hmissing).
    apply Hmissing.
    vm_compute in Hrun. injection Hrun as <-. vm_compute.
    repeat constructor.
  - exfalso. vm_compute in Hrun. discriminate Hrun.
Defined.

(** What the amended claim leaves out: a column mixing dates and missing
    values stops the run with a [TypeError]. *)
Lemma date_range_mixed (ds : list (option string)) (x : string) :
  None ∈ ds → Some x ∈ ds → py_min date_lt ds = Raise TypeError.
Proof.
  intros Hnan Hx. destruct ds as [|d ds]; [by apply elem_of_nil in Hnan|].
  unfold py_min.
  apply (py_min_from_mixed date_lt String.ltb); try done.
  - apply ltb_asym.
  - apply leb_trans.
  - eauto.
Qed.


(** ** The district sentinel *)

(** the projection of one row of the legislators table *)
Lemma create_legislator_nodes_lookup legislators_csv i x :
  legislators_csv !! i = Some x →
  ∃ leg,
    create_legislator_nodes (clean_legislator <$> legislators_csv) !! i
    = Some leg
    ∧ Legislator.id leg = LegislatorsCsv.bioguide_id x
    ∧ Legislator.district leg
      = match LegislatorsCsv.district x with
        | None => None
        | Some d => if decide (int_value d = -1) then None
                    else Some (int_value d)
        end.
Proof.
  intros Hx. unfold create_legislator_nodes.
  rewrite !list_lookup_fmap, Hx. simpl. eexists. split; [done|].
  split; [done|]. simpl.
  destruct (LegislatorsCsv.district x) as [d|]; simpl; [|done].
  destruct (decide (int_value d = -1)) as [->|Hd]; [done|].
  by rewrite decide_True.
Qed.

(** C7, as stated, fails: district 0, the code of an at-large seat, is
    neither the sentinel nor missing, and is projected as 0, which is not
    positive. *)
Lemma district_counterexample :
  Legislator.district
    <$> create_legislator_nodes (clean_legislator <$> at_large_legislator)
  = [Some 0]
  ∧ ¬ (0 < 0).
Proof. split; [by vm_compute|lia]. Qed.

(** C7, amended: a raw district that is -1 or missing is projected as
    null; every other raw value, a whole number that the column holds
    exactly, is projected as that integer, which is positive exactly when
    the raw value is; -1 is never projected. *)
Theorem district_amended (legislators_csv : list LegislatorsCsv.row)
    (i : nat) (x : LegislatorsCsv.row) :
  legislators_csv !! i = Some x →
  ∃ leg,
    create_legislator_nodes (clean_legislator <$> legislators_csv) !! i
    = Some leg
    ∧ Legislator.id leg = LegislatorsCsv.bioguide_id x
    ∧ (LegislatorsCsv.district x = None
       ∨ int_value <$> LegislatorsCsv.district x = Some (-1) →
       Legislator.district leg = None)
    ∧ (∀ d, LegislatorsCsv.district x = Some d → int_value d ≠ -1 →
         Legislator.district leg = Some (int_value d)
         ∧ (0 < int_value d ↔ ∃ n, Legislator.district leg = Some n ∧ 0 < n))
    ∧ Legislator.district leg ≠ Some (-1).
Proof.
  intros (leg & Hleg & Hid & Hd)%create_legislator_nodes_lookup.
  exists leg. split; [done|]. split; [done|]. rewrite Hd.
  destruct (LegislatorsCsv.district x) as [d|]; simpl.
  - destruct (decide (int_value d = -1)) as [Heq|Hne].
    + split_and!; [done|intros ? [= <-]; done|done].
    + split_and!.
      * intros [[=]|[= ?]]. done.
      * intros d' [= <-] _. split; [done|]. split.
        -- intros Hpos. eauto.
        -- by intros (n & [= <-] & Hn).
      * congruence.
  - split_and!; [done|intros ? [=]|done].
Qed.

Lemma district_amended_witness :
  (∃ leg,
     create_legislator_nodes (clean_legislator <$> two_legislators) !! 1%nat
     = Some leg
     ∧ Legislator.id leg = "P2"
     ∧ Legislator.district leg = None)
  ∧ (∃ leg,
       create_legislator_nodes (clean_legislator <$> sentinel_legislator)
         !! 0%nat = Some leg
       ∧ Legislator.district leg = None)
  ∧ (∃ leg,
       create_legislator_nodes (clean_legislator <$> two_legislators) !! 0%nat
       = Some leg
       ∧ Legislator.district leg = Some 12).
Proof.
  split_and!.
  - destruct (district_amended two_legislators 1
                (legislator_row "P2" None None) eq_refl)
      as (leg & Hleg & Hid & Hnull & _).
    exists leg. split; [done|]. split; [done|]. apply Hnull. by left.
  - destruct (district_amended sentinel_legislator 0
                (legislator_row "P3" (Some district_sentinel) (Some "R"))
                eq_refl)
      as (leg & Hleg & _ & Hnull & _).
    exists leg. split; [done|]. apply Hnull. by right.
  - destruct (district_amended two_legislators 0
                (legislator_row "P1" (Some district_12) (Some "D")) eq_refl)
      as (leg & Hleg & _ & _ & Hother & _).
    exists leg. split; [done|].
    by destruct (Hother district_12 eq_refl) as [-> _].
Defined.

Lemma attach_metrics_district metrics leg :
  Legislator.district (attach_metrics metrics leg) = Legislator.district leg.
Proof. unfold attach_metrics. by destruct (metrics !! _). Qed.

(** The sentinel does not reach the snapshot either. *)
Lemma snapshot_district rt bills_csv legislators_csv bill_sponsors_csv
    bill_policies_csv bill_policy_links_csv target_congress snap leg :
  prepare_network_data rt bills_csv legislators_csv bill_sponsors_csv
    bill_policies_csv bill_policy_links_csv target_congress = Ok snap →
  leg ∈ legislators snap → Legislator.district leg ≠ Some (-1).
Proof.
  intros (_ & Hlegs & _)%prepare_network_data_Ok. cbv zeta in Hlegs.
  rewrite Hlegs. intros (leg0 & -> & Hleg0)%list_elem_of_fmap.
  rewrite attach_metrics_district.
  apply list_elem_of_filter in Hleg0 as [_ Hleg0].
  apply list_elem_of_lookup in Hleg0 as [i Hi].
  assert (∃ x, legislators_csv !! i = Some x) as [x Hx].
  { unfold create_legislator_nodes in Hi. rewrite !list_lookup_fmap in Hi.
    destruct (legislators_csv !! i); [eauto|done]. }
  destruct (create_legislator_nodes_lookup legislators_csv i x Hx)
    as (leg' & Hleg' & _ & Hd).
  rewrite Hi in Hleg'. injection Hleg' as <-. rewrite Hd.
  destruct (LegislatorsCsv.district x) as [d|]; [|done].
  destruct (decide (int_value d = -1)); congruence.
Qed.


(** ** The joins *)

Lemma elem_of_merge_left {A B K : Type} `{EqDecision K}
    (left_key : A → option K) (right_key : B → K)
    (left : list A) (right : list B) (a : A) (ob : option B) :
  (a, ob) ∈ merge_left left_key right_key left right
  ↔ a ∈ left
    ∧ match ob with
      | Some b => b ∈ right ∧ left_key a = Some (right_key b)
      | None => ∀ b, b ∈ right → left_key a ≠ Some (right_key b)
      end.
Proof.
  unfold merge_left. rewrite list_elem_of_bind. split.
  - intros (a' & Hin & Ha').
    destruct (filter _ right) as [|m ms] eqn:Hms.
    + apply list_elem_of_singleton in Hin as [= -> ->]. split; [done|].
      intros b Hb Hkey.
      assert (b ∈ filter (λ b, left_key a' = Some (right_key b)) right) as Hf
        by by apply list_elem_of_filter.
      rewrite Hms in Hf. by apply elem_of_nil in Hf.
    + apply list_elem_of_fmap in Hin as (b & [= -> ->] & Hb).
      split; [done|]. rewrite <- Hms in Hb.
      by apply list_elem_of_filter in Hb as [? ?].
  - intros [Ha Hob]. exists a. split; [|done].
    destruct ob as [b|].
    + destruct Hob as [Hb Hkey].
      assert (b ∈ filter (λ b, left_key a = Some (right_key b)) right) as Hf
        by by apply list_elem_of_filter.
      destruct (filter _ right) as [|m ms]; [by apply elem_of_nil in Hf|].
      apply list_elem_of_fmap. eauto.
    + destruct (filter _ right) as [|m ms] eqn:Hms; [set_solver|].
      assert (m ∈ filter (λ b, left_key a = Some (right_key b)) right) as Hf
        by (rewrite Hms; set_solver).
      apply list_elem_of_filter in Hf as [Hkey Hm]. by destruct (Hob m).
Qed.

(** The rows of [bills_df]: one for each retained bill, each policy link of
    the bill (or none) and each policy row of the linked id (or none). *)
Lemma elem_of_bills_df rt bills_csv legislators_csv bill_sponsors_csv
    bill_policies_csv bill_policy_links_csv target_congress row :
  row ∈ (load_and_clean_data rt bills_csv legislators_csv bill_sponsors_csv
           bill_policies_csv bill_policy_links_csv target_congress).1.1.1
  ↔ ∃ b olink opolicy,
      b ∈ bills_csv
      ∧ default default_target_congress target_congress ≤ BillsCsv.congress b
      ∧ match olink with
        | Some link =>
            link ∈ bill_policy_links_csv
            ∧ Links.bill_number link = BillsCsv.bill_number b
        | None =>
            ∀ link, link ∈ bill_policy_links_csv →
                    Links.bill_number link ≠ BillsCsv.bill_number b
        end
      ∧ match opolicy with
        | Some policy =>
            policy ∈ bill_policies_csv
            ∧ Links.policy_id <$> olink = Some (Policies.policy_id policy)
        | None =>
            ∀ policy, policy ∈ bill_policies_csv →
                      Links.policy_id <$> olink
                      ≠ Some (Policies.policy_id policy)
        end
      ∧ row = {| Bills.bill_number := BillsCsv.bill_number b;
                 Bills.congress := BillsCsv.congress b;
                 Bills.title := BillsCsv.title b;
                 Bills.latest_action_date :=
                   strftime rt
                     <$> (BillsCsv.latest_action_date b ≫= to_datetime rt);
                 Bills.latest_action_text := BillsCsv.latest_action_text b;
                 Bills.origin_chamber := BillsCsv.origin_chamber b;
                 Bills.policy_id := Links.policy_id <$> olink;
                 Bills.policy_name := opolicy ≫= Policies.name |}.
Proof.
  unfold load_and_clean_data. cbv zeta. simpl.
  rewrite list_elem_of_fmap. split.
  - intros ([[[b d] pid] opolicy] & -> & Hin). simpl.
    apply elem_of_merge_left in Hin as [Hin Hpolicy]. simpl in Hpolicy.
    apply list_elem_of_fmap in Hin as ([[b1 d1] olink] & Heq & Hin).
    simpl in Heq. injection Heq as Hb Hd Hpid. subst b d pid.
    apply elem_of_merge_left in Hin as [Hin Hlink]. simpl in Hlink.
    rewrite sort_values_desc_perm in Hin.
    apply list_elem_of_fmap in Hin as (b2 & Heq & Hin).
    injection Heq as Hb Hd. subst b1 d1.
    apply list_elem_of_filter in Hin as [Hcongress Hin].
    exists b2, olink, opolicy. split_and!; try done.
    destruct olink as [link|].
    + destruct Hlink as [Hl Hk]. split; [done|]. congruence.
    + intros link Hl Hk. apply (Hlink link Hl). congruence.
  - intros (b & olink & opolicy & Hb & Hcongress & Hlink & Hpolicy & ->).
    exists (b, BillsCsv.latest_action_date b ≫= to_datetime rt,
            Links.policy_id <$> olink, opolicy).
    split; [done|].
    apply elem_of_merge_left. split; [|done].
    apply list_elem_of_fmap.
    exists (b, BillsCsv.latest_action_date b ≫= to_datetime rt, olink).
    split; [done|].
    apply elem_of_merge_left. split.
    + rewrite sort_values_desc_perm. apply list_elem_of_fmap.
      exists b. split; [done|]. by apply list_elem_of_filter.
    + simpl. destruct olink as [link|].
      * destruct Hlink as [Hl Hk]. split; [done|]. congruence.
      * intros link Hl Hk. apply (Hlink link Hl). congruence.
Qed.

(** every bill of the target congress or later has a row in the frame *)
Lemma bills_df_retained rt bills_csv legislators_csv bill_sponsors_csv
    bill_policies_csv bill_policy_links_csv target_congress b :
  b ∈ bills_csv →
  default default_target_congress target_congress ≤ BillsCsv.congress b →
  ∃ row,
    row ∈ (load_and_clean_data rt bills_csv legislators_csv
             bill_sponsors_csv bill_policies_csv bill_policy_links_csv
             target_congress).1.1.1
    ∧ Bills.bill_number row = BillsCsv.bill_number b
    ∧ Bills.congress row = BillsCsv.congress b.
Proof.
  intros Hb Hc.
  set (olink := head (filter (λ link, Links.bill_number link
                                      = BillsCsv.bill_number b)
                        bill_policy_links_csv)).
  set (opolicy := head (filter (λ policy, Links.policy_id <$> olink
                                          = Some (Policies.policy_id policy))
                          bill_policies_csv)).
  exists {| Bills.bill_number := BillsCsv.bill_number b;
            Bills.congress := BillsCsv.congress b;
            Bills.title := BillsCsv.title b;
            Bills.latest_action_date :=
              strftime rt
                <$> (BillsCsv.latest_action_date b ≫= to_datetime rt);
            Bills.latest_action_text := BillsCsv.latest_action_text b;
            Bills.origin_chamber := BillsCsv.origin_chamber b;
            Bills.policy_id := Links.policy_id <$> olink;
            Bills.policy_name := opolicy ≫= Policies.name |}.
  split; [|done].
  apply elem_of_bills_df. exists b, olink, opolicy.
  split_and!; [exact Hb|exact Hc| | |reflexivity].
  - unfold olink. destruct (filter _ bill_policy_links_csv) as [|m ms] eqn:Hf.
    + simpl. intros link Hl Hk.
      assert (link ∈ filter (λ link, Links.bill_number link
                                     = BillsCsv.bill_number b)
                        bill_policy_links_csv) as Hin
        by by apply list_elem_of_filter.
      rewrite Hf in Hin. by apply elem_of_nil in Hin.
    + simpl.
      assert (m ∈ filter (λ link, Links.bill_number link
                                  = BillsCsv.bill_number b)
                     bill_policy_links_csv) as Hin
        by (rewrite Hf; set_solver).
      by apply list_elem_of_filter in Hin as [? ?].
  - unfold opolicy. destruct (filter _ bill_policies_csv) as [|m ms] eqn:Hf.
    + simpl. intros policy Hp Hk.
      assert (policy ∈ filter (λ policy, Links.policy_id <$> olink
                                         = Some (Policies.policy_id policy))
                          bill_policies_csv) as Hin
        by by apply list_elem_of_filter.
      rewrite Hf in Hin. by apply elem_of_nil in Hin.
    + simpl.
      assert (m ∈ filter (λ policy, Links.policy_id <$> olink
                                    = Some (Policies.policy_id policy))
                     bill_policies_csv) as Hin
        by (rewrite Hf; set_solver).
      by apply list_elem_of_filter in Hin as [? ?].
Qed.

(** ** The policy default and the histogram *)

Lemma policy_counts_of_names (bills : list Bill.t) :
  policy_counts_of bills
  = foldl (λ d x, incr x d) ∅
      (filter (λ name, name ≠ "Uncategorized") (Bill.policy_name <$> bills)).
Proof.
  unfold policy_counts_of. generalize (∅ : gmap string nat).
  induction bills as [|bill bills IH]; intros d; [done|].
  rewrite fmap_cons, filter_cons. simpl.
  destruct (decide (Bill.policy_name bill ≠ "Uncategorized")); simpl;
    apply IH.
Qed.

Lemma policy_counts_of_lookup (bills : list Bill.t) (name : string) :
  policy_counts_of bills !! "Uncategorized" = None
  ∧ (name ≠ "Uncategorized" →
     default 0%nat (policy_counts_of bills !! name)
     = length (filter (λ bill, Bill.policy_name bill = name) bills)).
Proof.
  rewrite policy_counts_of_names. split.
  - apply eq_None_not_Some. rewrite foldl_incr_is_Some.
    by intros [? _]%list_elem_of_filter.
  - intros Hname. rewrite foldl_incr_lookup, lookup_empty. simpl.
    induction bills as [|bill bills IH]; [done|].
    rewrite fmap_cons, !filter_cons.
    destruct (decide (Bill.policy_name bill = name)) as [Hb|Hb].
    + rewrite decide_True by congruence.
      rewrite filter_cons, decide_True by done. simpl. by rewrite IH.
    + destruct (decide (Bill.policy_name bill ≠ "Uncategorized")); [|done].
      by rewrite filter_cons, decide_False.
Qed.

(** C8: a retained bill without a policy link is kept, and every record
    of it has a null policy id and the policy name "Uncategorized"; a record
    whose policy id meets no named policy is "Uncategorized" as well; the
    histogram has no "Uncategorized" bucket and counts, for every other
    name, the records of that name; these are the bills and the histogram
    of the snapshot. *)
Theorem policy_default (rt : Runtime)
    (bills_csv : list BillsCsv.row)
    (legislators_csv : list LegislatorsCsv.row)
    (bill_sponsors_csv : list Sponsors.row)
    (bill_policies_csv : list Policies.row)
    (bill_policy_links_csv : list Links.row)
    (target_congress : option Z) :
  let bills_df :=
    (load_and_clean_data rt bills_csv legislators_csv bill_sponsors_csv
       bill_policies_csv bill_policy_links_csv
       (Some (default default_target_congress target_congress))).1.1.1 in
  let records := process_bills bills_df in
  (* a retained bill without a policy link is kept, with a null policy id *)
  (∀ b, b ∈ bills_csv →
     default default_target_congress target_congress ≤ BillsCsv.congress b →
     (∀ link, link ∈ bill_policy_links_csv →
              Links.bill_number link ≠ BillsCsv.bill_number b) →
     (∃ bill, bill ∈ records
              ∧ Bill.bill_number bill = BillsCsv.bill_number b
              ∧ Bill.congress bill = BillsCsv.congress b
              ∧ Bill.title bill = BillsCsv.title b)
     ∧ ∀ bill, bill ∈ records →
         Bill.bill_number bill = BillsCsv.bill_number b →
         Bill.policy_id bill = None
         ∧ Bill.policy_name bill = "Uncategorized")
  (* a record whose policy id meets no named policy is Uncategorized *)
  ∧ (∀ bill, bill ∈ records →
       (∀ policy, policy ∈ bill_policies_csv →
          Bill.policy_id bill = Some (Policies.policy_id policy) →
          Policies.name policy = None) →
       Bill.policy_name bill = "Uncategorized")
  (* the histogram has no Uncategorized bucket and counts the others *)
  ∧ policy_counts_of records !! "Uncategorized" = None
  ∧ (∀ name, name ≠ "Uncategorized" →
       default 0%nat (policy_counts_of records !! name)
       = length (filter (λ bill, Bill.policy_name bill = name) records))
  (* and these are the bills and the histogram of the snapshot *)
  ∧ (∀ snap,
       prepare_network_data rt bills_csv legislators_csv bill_sponsors_csv
         bill_policies_csv bill_policy_links_csv target_congress = Ok snap →
       bills snap = records
       ∧ policies_counts (metadata snap) = policy_counts_of records).
Proof.
  intros bills_df records.
  assert (∀ bill, bill ∈ records →
            ∃ row, row ∈ bills_df
              ∧ Bill.bill_number bill = Bills.bill_number row
              ∧ Bill.policy_id bill = Bills.policy_id row
              ∧ Bill.policy_name bill
                = default "Uncategorized" (Bills.policy_name row))
    as Hbills.
  { intros bill. unfold records, process_bills.
    intros (row & -> & Hrow)%list_elem_of_fmap. exists row. done. }
  split_and!.
  - intros b Hb Hcongress Hnolink. split.
    + eexists. split.
      * unfold records, process_bills. apply list_elem_of_fmap.
        eexists. split; [reflexivity|].
        apply elem_of_bills_df. exists b, None, None. simpl.
        split_and!; try done.
      * done.
    + intros bill (row & Hrow & Hnum & Hid & Hname)%Hbills Hsame.
      apply elem_of_bills_df in Hrow
        as (b' & olink & opolicy & _ & _ & Hlink & Hpolicy & ->).
      simpl in *. rewrite Hid, Hname.
      destruct olink as [link|].
      { destruct Hlink as [Hlink Hkey]. destruct (Hnolink link Hlink).
        congruence. }
      destruct opolicy as [policy|]; [by destruct Hpolicy|]. done.
  - intros bill (row & Hrow & Hnum & Hid & Hname)%Hbills Hunnamed.
    apply elem_of_bills_df in Hrow
      as (b' & olink & opolicy & _ & _ & Hlink & Hpolicy & ->).
    simpl in *. rewrite Hname.
    destruct opolicy as [policy|]; [|done].
    destruct Hpolicy as [Hpolicy Hkey]. simpl.
    rewrite (Hunnamed policy Hpolicy); [done|]. congruence.
  - apply (policy_counts_of_lookup records "").
  - intros name. apply policy_counts_of_lookup.
  - intros snap (_ & _ & Hb & Hcounts & _)%prepare_network_data_Ok.
    done.
Qed.

Lemma policy_default_witness :
  Forall (λ bill, Bill.bill_number bill = "B1" →
                  Bill.policy_id bill = None
                  ∧ Bill.policy_name bill = "Uncategorized")
    (process_bills
       (load_and_clean_data reference_runtime two_bills [] []
          one_policy one_link None).1.1.1).
Proof.
  destruct (policy_default reference_runtime two_bills [] [] one_policy
              one_link None) as [Hnolink _].
  destruct (Hnolink (bill_row "B1" 117 (Some "2021-01-02"))) as [_ Hall].
  - apply list_elem_of_here.
  - by vm_compute.
  - intros link ->%list_elem_of_singleton. by vm_compute.
  - apply Forall_forall. exact Hall.
Defined.


(** ** Run parameters *)

Lemma filter_ext_in {A : Type} (P Q : A → Prop)
    `{∀ x, Decision (P x)} `{∀ x, Decision (Q x)} (l : list A) :
  (∀ x, x ∈ l → P x ↔ Q x) → filter P l = filter Q l.
Proof.
  induction l as [|x l IH]; intros HPQ; [done|].
  rewrite !filter_cons.
  assert (filter P l = filter Q l) as -> by (apply IH; set_solver).
  destruct (decide (P x)) as [HP|HP].
  - rewrite decide_True; [done|]. apply HPQ; [set_solver|done].
  - rewrite decide_False; [done|]. intros HQ. apply HP, HPQ; [set_solver|done].
Qed.

(** Where no cosponsor row names the primary sponsor of its own bill, the
    code forms the pairs of the specification and counts them alike. *)
Lemma spec_pair_row_pair valid_bills primary_sponsors row :
  (Sponsors.sponsor_type row = "Cosponsor" →
   primary_sponsors !! Sponsors.bill_number row
   ≠ Some (Sponsors.bioguide_id row)) →
  spec_pair valid_bills primary_sponsors row
  = row_pair valid_bills primary_sponsors row.
Proof.
  intros Hself. unfold spec_pair, row_pair.
  destruct (decide _) as [[_ Htype]|]; [|done].
  destruct (primary_sponsors !! _) as [ps|] eqn:Hps; [|done]. simpl.
  destruct (decide (ps = Sponsors.bioguide_id row)) as [->|]; [|done].
  by destruct (Hself Htype).
Qed.

(** C9, as stated, fails for the threshold: the graph builder takes no
    threshold, so a caller's choice cannot reach it.  On the negative
    example the specification at threshold 1 emits the record of the single
    shared bill, and the code emits nothing; on the end-to-end example the
    specification at threshold 3 emits nothing, and the code emits both
    records. *)
Lemma run_parameters_counterexample :
  (length (spec_collaborations 1 single_sponsors (cleaned_bills one_bill))
   = 1%nat
   ∧ process_collaborations reference_runtime single_sponsors
       (cleaned_bills one_bill) = [])
  ∧ (spec_collaborations 3 shared_sponsors (cleaned_bills two_bills) = []
     ∧ length (process_collaborations reference_runtime shared_sponsors
                 (cleaned_bills two_bills)) = 2%nat).
Proof. split; split; by vm_compute. Qed.

(** C9, amended: the target congress is an input of the pipeline, 117 when
    the caller gives none, and the bill filter uses it: the retained rows
    are those of the bills of congress at least the target, and the
    snapshot is built from them.  The threshold is not an input: on every
    table in which no cosponsor row names the primary sponsor of its own
    bill, the graph builder emits, up to order, the records of the
    specification at threshold 2. *)
Theorem run_parameters_amended (rt : Runtime)
    (bills_csv : list BillsCsv.row)
    (legislators_csv : list LegislatorsCsv.row)
    (bill_sponsors_csv : list Sponsors.row)
    (bill_policies_csv : list Policies.row)
    (bill_policy_links_csv : list Links.row)
    (target_congress : option Z) :
  let target := default 117 target_congress in
  let bills_df :=
    (load_and_clean_data rt bills_csv legislators_csv bill_sponsors_csv
       bill_policies_csv bill_policy_links_csv target_congress).1.1.1 in
  (∀ row, row ∈ bills_df → target ≤ Bills.congress row)
  ∧ (∀ b, b ∈ bills_csv → target ≤ BillsCsv.congress b →
       ∃ row, row ∈ bills_df
              ∧ Bills.bill_number row = BillsCsv.bill_number b
              ∧ Bills.congress row = BillsCsv.congress b)
  ∧ (∀ b, b ∈ bills_csv → BillsCsv.congress b < target →
       ∀ row, row ∈ bills_df →
         ¬ (Bills.bill_number row = BillsCsv.bill_number b
            ∧ Bills.congress row = BillsCsv.congress b))
  ∧ (∀ snap,
       prepare_network_data rt bills_csv legislators_csv bill_sponsors_csv
         bill_policies_csv bill_policy_links_csv target_congress = Ok snap →
       bills snap = process_bills bills_df
       ∧ collaborations snap
         = process_collaborations rt bill_sponsors_csv bills_df)
  ∧ (∀ sponsors bills,
       Forall (λ row, Sponsors.sponsor_type row = "Cosponsor" →
                      primary_sponsors_of sponsors !! Sponsors.bill_number row
                      ≠ Some (Sponsors.bioguide_id row)) sponsors →
       process_collaborations rt sponsors bills
       ≡ₚ spec_collaborations 2 sponsors bills).
Proof.
  intros target bills_df. split_and!.
  - intros row (b & ? & ? & _ & Hc & _ & _ & ->)%elem_of_bills_df. done.
  - intros b Hb Hc. by apply bills_df_retained.
  - intros b Hb Hlt row (b' & ? & ? & _ & Hc & _ & _ & ->)%elem_of_bills_df.
    simpl. intros [_ Heq].
    unfold target in Hlt. unfold default_target_congress in Hc. lia.
  - intros snap (Hcs & _ & Hb & _)%prepare_network_data_Ok.
    cbv zeta in Hcs, Hb.
    assert (Some (default default_target_congress target_congress)
            = target_congress ∨ target_congress = None) as [Ht| ->].
    { destruct target_congress; auto. }
    + rewrite Ht in Hcs, Hb. done.
    + done.
  - intros sponsors bills Hnoself. rewrite Forall_forall in Hnoself.
    rewrite process_collaborations_rows. unfold spec_collaborations.
    apply reflexive_eq, bind_ext_in. intros row Hrow.
    unfold row_collaborations.
    rewrite spec_pair_row_pair by by apply Hnoself.
    destruct (row_pair _ _ row) as [key|]; [|done].
    assert (spec_count sponsors bills key = global_count sponsors bills key)
      as ->; [|done].
    rewrite global_count_occurrences. unfold spec_count, occurrences.
    f_equal. apply filter_ext_in. intros r Hr.
    by rewrite spec_pair_row_pair by by apply Hnoself.
Qed.

Lemma run_parameters_amended_witness :
  (∃ row,
     row ∈ (load_and_clean_data reference_runtime
              [bill_row "B1" 116 None; bill_row "B2" 118 None] [] [] [] []
              (Some 118)).1.1.1
     ∧ Bills.bill_number row = "B2"
     ∧ Bills.congress row = 118)
  ∧ process_collaborations reference_runtime shared_sponsors
      (cleaned_bills two_bills)
    ≡ₚ spec_collaborations 2 shared_sponsors (cleaned_bills two_bills).
Proof.
  split.
  - destruct (run_parameters_amended reference_runtime
                [bill_row "B1" 116 None; bill_row "B2" 118 None] [] [] [] []
                (Some 118)) as (_ & Hkept & _).
    apply (Hkept (bill_row "B2" 118 None)).
    + apply list_elem_of_further, list_elem_of_here.
    + by vm_compute.
  - destruct (run_parameters_amended reference_runtime [] [] [] [] [] None)
      as (_ & _ & _ & _ & Hspec).
    apply Hspec. apply Forall_forall. intros row Hrow Htype.
    unfold shared_sponsors in Hrow.
    repeat (apply elem_of_cons in Hrow as [->|Hrow]);
      [| | | |by apply elem_of_nil in Hrow];
      first [discriminate Htype | by vm_compute].
Defined.


(** * Further properties of the pipeline *)

(** ** The two lookups of the graph builder *)

(** A dictionary filled row by row holds, for each key, the value of the
    last row of that key. *)
Lemma foldl_insert_last {A V : Type} `{Countable K}
    (key : A → K) (val : A → V) (l : list A) (k : K) :
  foldl (λ d x, <[key x := val x]> d) (∅ : gmap K V) l !! k
  = val <$> last (filter (λ x, key x = k) l).
Proof.
  induction l as [|x l IH] using rev_ind; [done|].
  rewrite foldl_snoc, lookup_insert, filter_app, filter_cons, filter_nil.
  destruct (decide (key x = k)) as [Hk|Hk].
  - by rewrite last_snoc.
  - by rewrite app_nil_r.
Qed.

(** X1: when a bill has several Primary rows the last one is its primary
    sponsor, and a bill has a primary sponsor only if it has a Primary
    row. *)
Theorem primary_sponsor_last_wins (bill_sponsors_df : list Sponsors.row)
    (bill_number : string) :
  primary_sponsors_of bill_sponsors_df !! bill_number
  = Sponsors.bioguide_id
      <$> last (filter (λ row, Sponsors.bill_number row = bill_number
                               ∧ Sponsors.sponsor_type row = "Primary")
                  bill_sponsors_df).
Proof.
  unfold primary_sponsors_of.
  rewrite (foldl_insert_last Sponsors.bill_number Sponsors.bioguide_id).
  by rewrite list_filter_filter.
Qed.

(** X2: the metadata kept for a bill number is that of the last row of
    the bill frame with that number. *)
Theorem bill_info_last_wins (bills_df : list Bills.row)
    (bill_number : string) :
  bill_info_of bills_df !! bill_number
  = (λ row, {| info_congress := Bills.congress row;
               info_title := Bills.title row;
               info_latest_action_text := Bills.latest_action_text row;
               info_latest_action_date := Bills.latest_action_date row |})
      <$> last (filter (λ row, Bills.bill_number row = bill_number) bills_df).
Proof.
  unfold bill_info_of.
  apply (foldl_insert_last Bills.bill_number
           (λ row, {| info_congress := Bills.congress row;
                      info_title := Bills.title row;
                      info_latest_action_text := Bills.latest_action_text row;
                      info_latest_action_date :=
                        Bills.latest_action_date row |})).
Qed.

(** ** What every record satisfies *)

(** X3: every emitted record is labelled Primary-Cosponsor, carries a bill
    of the filtered set, joins that bill's primary sponsor with the member
    of one of its Cosponsor rows, and belongs to a pair whose global count
    reaches the threshold. *)
Theorem records_sound (rt : Runtime)
    (bill_sponsors_df : list Sponsors.row) (bills_df : list Bills.row) :
  Forall
    (λ c,
       relationship c = "Primary-Cosponsor"
       ∧ bill_number c ∈ dom (bill_info_of bills_df)
       ∧ (min_collaborations
          ≤ global_count bill_sponsors_df bills_df (source c, target c))%nat
       ∧ ∃ primary_sponsor cosponsor,
           primary_sponsors_of bill_sponsors_df !! bill_number c
           = Some primary_sponsor
           ∧ {| Sponsors.bill_number := bill_number c;
                Sponsors.bioguide_id := cosponsor;
                Sponsors.sponsor_type := "Cosponsor" |} ∈ bill_sponsors_df
           ∧ (source c, target c) = sorted_pair primary_sponsor cosponsor)
    (process_collaborations rt bill_sponsors_df bills_df).
Proof.
  apply Forall_forall.
  intros c (row & pair & Hrow & Hpair & Hsig & Hc)%collaboration_origin.
  apply row_pair_valid in Hpair as (Hvalid & Htype & ps & Hps & ->).
  pose proof (row_record_bill_number _ _ _ _ Hc) as Hb.
  pose proof (row_record_pair _ _ _ _ Hc) as Hst.
  rewrite Hst, Hb. split_and!; try done.
  - unfold row_record in Hc. destruct (bill_info_of bills_df !! _); [|done].
    by injection Hc as <-.
  - exists ps, (Sponsors.bioguide_id row). split_and!; try done.
    destruct row as [b i t]. simpl in *. by subst t.
Qed.

(** X4: a bill without a Primary row contributes no record, whatever its
    cosponsors. *)
Theorem no_primary_no_record (rt : Runtime)
    (bill_sponsors_df : list Sponsors.row) (bills_df : list Bills.row)
    (b : string) :
  Forall (λ row, Sponsors.bill_number row = b →
                 Sponsors.sponsor_type row ≠ "Primary") bill_sponsors_df →
  Forall (λ c, bill_number c ≠ b)
    (process_collaborations rt bill_sponsors_df bills_df).
Proof.
  intros Hnone. apply Forall_forall.
  intros c (row & pair & Hrow & Hpair & _ & Hc)%collaboration_origin Hcb.
  apply row_pair_valid in Hpair as (_ & _ & ps & Hps & _).
  rewrite <- (row_record_bill_number _ _ _ _ Hc), Hcb in Hps.
  unfold primary_sponsors_of in Hps.
  rewrite (foldl_insert_last Sponsors.bill_number Sponsors.bioguide_id) in Hps.
  destruct (last _) as [r|] eqn:Hlast; [|done].
  apply last_Some in Hlast as [l' Hl'].
  assert (r ∈ filter (λ x, Sponsors.bill_number x = b)
                (filter (λ row, Sponsors.sponsor_type row = "Primary")
                   bill_sponsors_df)) as Hr
    by (rewrite Hl'; set_solver).
  apply list_elem_of_filter in Hr as [Hrb Hr].
  apply list_elem_of_filter in Hr as [Hrt Hr].
  rewrite Forall_forall in Hnone. by apply (Hnone r Hr Hrb).
Qed.

Lemma no_primary_no_record_witness :
  Forall (λ c, bill_number c ≠ "B2")
    (process_collaborations reference_runtime contested_sponsors
       (cleaned_bills two_bills)).
Proof.
  apply (no_primary_no_record reference_runtime contested_sponsors
           (cleaned_bills two_bills) "B2").
  repeat constructor; by vm_compute.
Defined.

(** X5: the order in which the set of bills is visited only permutes the
    output. *)
Theorem iteration_order_irrelevant (rt1 rt2 : Runtime)
    (bill_sponsors_df : list Sponsors.row) (bills_df : list Bills.row) :
  process_collaborations rt1 bill_sponsors_df bills_df
  ≡ₚ process_collaborations rt2 bill_sponsors_df bills_df.
Proof. by rewrite !process_collaborations_rows. Qed.


(** ** How a run ends *)

Lemma py_min_from_int_min (candidate : Z) (xs : list Z) :
  py_min_from int_lt candidate xs = Ok (foldl Z.min candidate xs).
Proof.
  revert candidate. induction xs as [|x xs IH]; intros c; [done|].
  simpl. rewrite IH. do 2 f_equal.
  destruct (Z.ltb_spec x c); lia.
Qed.

Lemma py_max_from_int_max (candidate : Z) (xs : list Z) :
  py_min_from (λ item c, int_lt c item) candidate xs
  = Ok (foldl Z.max candidate xs).
Proof.
  revert candidate. induction xs as [|x xs IH]; intros c; [done|].
  simpl. rewrite IH. do 2 f_equal.
  destruct (Z.ltb_spec c x); lia.
Qed.

Lemma foldl_min_spec (c : Z) (xs : list Z) :
  foldl Z.min c xs ∈ c :: xs ∧ Forall (λ x, foldl Z.min c xs ≤ x) (c :: xs).
Proof.
  revert c. induction xs as [|x xs IH]; intros c; simpl.
  - split; [set_solver|]. repeat constructor. lia.
  - destruct (IH (Z.min c x)) as [Hin Hle].
    apply Forall_cons in Hle as [Hle Hall]. split.
    + apply elem_of_cons in Hin as [Hin|Hin]; [|set_solver].
      rewrite Hin. destruct (Z.min_spec c x) as [[_ ->]|[_ ->]]; set_solver.
    + repeat constructor; [lia|lia|done].
Qed.

Lemma foldl_max_spec (c : Z) (xs : list Z) :
  foldl Z.max c xs ∈ c :: xs ∧ Forall (λ x, x ≤ foldl Z.max c xs) (c :: xs).
Proof.
  revert c. induction xs as [|x xs IH]; intros c; simpl.
  - split; [set_solver|]. repeat constructor. lia.
  - destruct (IH (Z.max c x)) as [Hin Hle].
    apply Forall_cons in Hle as [Hle Hall]. split.
    + apply elem_of_cons in Hin as [Hin|Hin]; [|set_solver].
      rewrite Hin. destruct (Z.max_spec c x) as [[_ ->]|[_ ->]]; set_solver.
    + repeat constructor; [lia|lia|done].
Qed.

(** a column of formatted dates is empty, all missing, all present, or
    mixed *)
Lemma date_column_cases (ds : list (option string)) :
  ds = []
  ∨ (ds ≠ [] ∧ Forall (λ d, d = None) ds)
  ∨ (∃ xs, xs ≠ [] ∧ ds = Some <$> xs)
  ∨ (None ∈ ds ∧ ∃ x, Some x ∈ ds).
Proof.
  induction ds as [|d ds IH]; [by left|]. right.
  destruct IH as [->|[[Hne Hall]|[(xs & Hne & ->)|[Hnan [x Hx]]]]].
  - destruct d as [x|].
    + right. left. by exists [x].
    + left. split; [done|]. by repeat constructor.
  - destruct d as [x|].
    + right. right. split; [|exists x; set_solver].
      destruct Hall as [|? ? -> _]; [done|]. set_solver.
    + left. split; [done|]. by constructor.
  - destruct d as [x|].
    + right. left. by exists (x :: xs).
    + right. right. split; [set_solver|].
      destruct xs as [|y xs]; [done|]. exists y. set_solver.
  - right. right. split; [set_solver|]. exists x. set_solver.
Qed.

Lemma congress_range_Ok (cs : list Z) :
  cs ≠ [] →
  py_min int_lt cs = Ok (foldl Z.min (default 0 (head cs)) (tail cs))
  ∧ py_max int_lt cs = Ok (foldl Z.max (default 0 (head cs)) (tail cs)).
Proof.
  destruct cs as [|c cs]; [done|]. intros _. unfold py_max, py_min. simpl.
  by rewrite py_min_from_int_min, py_max_from_int_max.
Qed.

(** The three ways a run can end, decided by the retained bills. *)
Lemma prepare_network_data_outcome rt bills_csv legislators_csv
    bill_sponsors_csv bill_policies_csv bill_policy_links_csv
    target_congress :
  let bills_df :=
    (load_and_clean_data rt bills_csv legislators_csv bill_sponsors_csv
       bill_policies_csv bill_policy_links_csv
       (Some (default default_target_congress target_congress))).1.1.1 in
  let run :=
    prepare_network_data rt bills_csv legislators_csv bill_sponsors_csv
      bill_policies_csv bill_policy_links_csv target_congress in
  (bills_df = [] ∧ run = Raise ValueError)
  ∨ (bills_df ≠ []
     ∧ (None ∈ Bills.latest_action_date <$> bills_df
        ∧ ∃ x, Some x ∈ Bills.latest_action_date <$> bills_df)
     ∧ run = Raise TypeError)
  ∨ (bills_df ≠ []
     ∧ ¬ (None ∈ Bills.latest_action_date <$> bills_df
          ∧ ∃ x, Some x ∈ Bills.latest_action_date <$> bills_df)
     ∧ ∃ snap, run = Ok snap).
Proof.
  intros bills_df run.
  assert (bills_df = [] ∨ bills_df ≠ []) as [Hnil|Hne]
    by (destruct bills_df; [by left|by right]).
  { left. split; [done|].
    unfold run, prepare_network_data. cbv zeta. fold bills_df.
    by rewrite Hnil. }
  right.
  destruct (congress_range_Ok (Bills.congress <$> bills_df))
    as [Hc0 Hc1].
  { by intros ?%fmap_nil_inv. }
  unfold run, prepare_network_data. cbv zeta. fold bills_df.
  rewrite Hc0, Hc1, process_bills_dates. simpl.
  destruct (date_column_cases (Bills.latest_action_date <$> bills_df))
    as [Hnil|[[_ Hall]|[(xs & Hxs & Hds)|Hmixed]]].
  - by apply fmap_nil_inv in Hnil.
  - right. split; [done|]. split.
    + intros [_ [x Hx]]. rewrite Forall_forall in Hall.
      by specialize (Hall _ Hx).
    + destruct (all_missing_dates _ Hall) as [-> ->].
      { by intros ?%fmap_nil_inv. }
      simpl. eauto.
  - right. split; [done|]. split.
    + rewrite Hds. intros [(x & [=] & _)%list_elem_of_fmap _].
    + destruct (all_present_dates xs Hxs) as (lo & hi & Hlo & Hhi & _).
      rewrite Hds, Hlo, Hhi. simpl. eauto.
  - left. split; [done|]. split; [done|].
    destruct Hmixed as [Hnan [x Hx]].
    by rewrite (date_range_mixed _ x Hnan Hx).
Qed.

(** X6: when no bill is of the target congress or later, [min] over the
    congress column raises [ValueError] (an empty sequence) and no snapshot
    is returned. *)
Theorem empty_bill_set_fails (rt : Runtime)
    (bills_csv : list BillsCsv.row)
    (legislators_csv : list LegislatorsCsv.row)
    (bill_sponsors_csv : list Sponsors.row)
    (bill_policies_csv : list Policies.row)
    (bill_policy_links_csv : list Links.row)
    (target_congress : option Z) :
  Forall (λ b, BillsCsv.congress b < default 117 target_congress)
    bills_csv →
  py_min int_lt
    (Bills.congress
       <$> (load_and_clean_data rt bills_csv legislators_csv
              bill_sponsors_csv bill_policies_csv bill_policy_links_csv
              (Some (default default_target_congress target_congress))).1.1.1)
  = Raise ValueError
  ∧ ∀ snap,
      prepare_network_data rt bills_csv legislators_csv bill_sponsors_csv
        bill_policies_csv bill_policy_links_csv target_congress ≠ Ok snap.
Proof.
  intros Hall.
  set (bills_df :=
    (load_and_clean_data rt bills_csv legislators_csv bill_sponsors_csv
       bill_policies_csv bill_policy_links_csv
       (Some (default default_target_congress target_congress))).1.1.1).
  assert (bills_df = []) as Hnil.
  { destruct bills_df as [|row l] eqn:Hdf; [done|]. exfalso.
    assert (row ∈ bills_df) as Hrow by (rewrite Hdf; set_solver).
    apply elem_of_bills_df in Hrow as (b & ? & ? & Hb & Hc & _).
    simpl in Hc. rewrite Forall_forall in Hall. specialize (Hall b Hb).
    unfold default_target_congress in Hc. lia. }
  split; [by rewrite Hnil|].
  pose proof (prepare_network_data_outcome rt bills_csv legislators_csv
                bill_sponsors_csv bill_policies_csv bill_policy_links_csv
                target_congress) as Hout.
  cbv zeta in Hout. fold bills_df in Hout.
  destruct Hout as [[_ ->]|[(Hne & _)|(Hne & _)]]; done.
Qed.

Lemma empty_bill_set_fails_witness :
  match prepare_network_data reference_runtime old_bill two_legislators
          shared_sponsors [] [] None with
  | Ok _ => False
  | Raise _ => True
  end.
Proof.
  destruct (empty_bill_set_fails reference_runtime old_bill two_legislators
              shared_sponsors [] [] None) as [_ Hfails].
  { repeat constructor. }
  destruct (prepare_network_data reference_runtime old_bill two_legislators
              shared_sponsors [] [] None) as [snap|e] eqn:Hrun.
  - by apply (Hfails snap).
  - exact I.
Defined.


(** X7: when the retained bills hold both a dated and an undated one,
    [min] over the column of formatted dates compares a string with a float
    and raises [TypeError], and no snapshot is returned. *)
Theorem mixed_dates_fail (rt : Runtime)
    (bills_csv : list BillsCsv.row)
    (legislators_csv : list LegislatorsCsv.row)
    (bill_sponsors_csv : list Sponsors.row)
    (bill_policies_csv : list Policies.row)
    (bill_policy_links_csv : list Links.row)
    (target_congress : option Z) :
  let dates :=
    Bills.latest_action_date
      <$> (load_and_clean_data rt bills_csv legislators_csv
             bill_sponsors_csv bill_policies_csv bill_policy_links_csv
             (Some (default default_target_congress target_congress))).1.1.1 in
  None ∈ dates → (∃ x, Some x ∈ dates) →
  py_min date_lt dates = Raise TypeError
  ∧ ∀ snap,
      prepare_network_data rt bills_csv legislators_csv bill_sponsors_csv
        bill_policies_csv bill_policy_links_csv target_congress ≠ Ok snap.
Proof.
  intros dates Hnan [x Hx].
  split; [by apply (date_range_mixed dates x)|].
  pose proof (prepare_network_data_outcome rt bills_csv legislators_csv
                bill_sponsors_csv bill_policies_csv bill_policy_links_csv
                target_congress) as Hout.
  cbv zeta in Hout. fold dates in Hout.
  destruct Hout as [[_ ->]|[(_ & _ & ->)|(_ & Hpure & _)]]; try done.
  destruct Hpure. eauto.
Qed.

Lemma mixed_dates_fail_witness :
  match prepare_network_data reference_runtime mixed_bills [] [] [] []
          None with
  | Ok _ => False
  | Raise _ => True
  end.
Proof.
  destruct (mixed_dates_fail reference_runtime mixed_bills [] [] [] [] None)
    as [_ Hfails].
  { by_compute. }
  { exists "2021-01-02". by_compute. }
  destruct (prepare_network_data reference_runtime mixed_bills [] [] [] []
              None) as [snap|e] eqn:Hrun.
  - by apply (Hfails snap).
  - exact I.
Defined.

(** ** The metadata of a snapshot *)

Lemma prepare_network_data_metadata rt bills_csv legislators_csv
    bill_sponsors_csv bill_policies_csv bill_policy_links_csv
    target_congress snap :
  prepare_network_data rt bills_csv legislators_csv bill_sponsors_csv
    bill_policies_csv bill_policy_links_csv target_congress = Ok snap →
  let bills_df :=
    (load_and_clean_data rt bills_csv legislators_csv bill_sponsors_csv
       bill_policies_csv bill_policy_links_csv
       (Some (default default_target_congress target_congress))).1.1.1 in
  py_min int_lt (Bills.congress <$> bills_df)
  = Ok (congress_range (metadata snap)).1
  ∧ py_max int_lt (Bills.congress <$> bills_df)
    = Ok (congress_range (metadata snap)).2
  ∧ total_bills (metadata snap) = length (bills snap)
  ∧ metadata_total_collaborations (metadata snap)
    = length (collaborations snap)
  ∧ total_legislators (metadata snap) = length (legislators snap)
  ∧ party_distribution (metadata snap)
    = value_counts
        (Legislators.party
           <$> filter (λ row, Legislators.bioguide_id row
                              ∈ active_legislators_of (collaborations snap))
                 (clean_legislator <$> legislators_csv))
  ∧ policies snap
    = (λ row, {| Policy.id :=
                   str_policy_id bill_policies_csv (Policies.policy_id row);
                 Policy.name := Policies.name row |}) <$> bill_policies_csv
  ∧ policies_total (metadata snap) = length bill_policies_csv.
Proof.
  unfold prepare_network_data. cbv zeta.
  destruct (py_min int_lt _) as [c0|]; [|done].
  destruct (py_max int_lt _) as [c1|]; [|done].
  destruct (py_min date_lt _) as [d0|]; [|done].
  destruct (py_max date_lt _) as [d1|]; [|done].
  simpl. intros [= <-]. simpl. split_and!; try done.
  by rewrite length_fmap.
Qed.

(** X8: in a snapshot the congress range is the least and the greatest
    congress of the bill records, and its start is at least the target
    congress. *)
Theorem congress_range_bounds (rt : Runtime)
    (bills_csv : list BillsCsv.row)
    (legislators_csv : list LegislatorsCsv.row)
    (bill_sponsors_csv : list Sponsors.row)
    (bill_policies_csv : list Policies.row)
    (bill_policy_links_csv : list Links.row)
    (target_congress : option Z) (snap : Snapshot) :
  prepare_network_data rt bills_csv legislators_csv bill_sponsors_csv
    bill_policies_csv bill_policy_links_csv target_congress = Ok snap →
  let range := congress_range (metadata snap) in
  range.1 ∈ Bill.congress <$> bills snap
  ∧ range.2 ∈ Bill.congress <$> bills snap
  ∧ Forall (λ bill, range.1 ≤ Bill.congress bill ≤ range.2) (bills snap)
  ∧ default 117 target_congress ≤ range.1.
Proof.
  intros Hrun range.
  pose proof (prepare_network_data_metadata _ _ _ _ _ _ _ _ Hrun)
    as (Hlo & Hhi & _).
  apply prepare_network_data_Ok in Hrun as (_ & _ & Hbills & _).
  cbv zeta in Hlo, Hhi, Hbills. fold range in Hlo, Hhi.
  set (bills_df := (load_and_clean_data _ _ _ _ _ _ _).1.1.1) in *.
  assert (Bill.congress <$> bills snap = Bills.congress <$> bills_df) as Hcs.
  { rewrite Hbills. unfold process_bills. rewrite <- list_fmap_compose.
    by apply list_fmap_ext. }
  assert (Bills.congress <$> bills_df ≠ []) as Hne.
  { intros Hnil. by rewrite Hnil in Hlo. }
  destruct (congress_range_Ok _ Hne) as [Hmin Hmax].
  rewrite Hmin in Hlo. rewrite Hmax in Hhi.
  injection Hlo as Hlo. injection Hhi as Hhi.
  destruct (Bills.congress <$> bills_df) as [|c cs] eqn:Hcongress; [done|].
  simpl in Hlo, Hhi.
  destruct (foldl_min_spec c cs) as [Hmin_in Hmin_le].
  destruct (foldl_max_spec c cs) as [Hmax_in Hmax_le].
  rewrite Hlo in Hmin_in, Hmin_le. rewrite Hhi in Hmax_in, Hmax_le.
  assert (Forall (λ x, range.1 ≤ x ≤ range.2) (Bill.congress <$> bills snap))
    as Hall.
  { rewrite Hcs. rewrite Forall_forall in Hmin_le, Hmax_le.
    apply Forall_forall. intros x Hx. split; auto. }
  split_and!.
  - by rewrite Hcs.
  - by rewrite Hcs.
  - by apply Forall_fmap in Hall.
  - rewrite <- Hcongress in Hmin_in.
    apply list_elem_of_fmap in Hmin_in as (row & Heq & Hrow).
    apply elem_of_bills_df in Hrow as (b & ? & ? & _ & Hc & _ & _ & Hb).
    rewrite Heq, Hb. simpl. unfold default_target_congress in Hc. done.
Qed.

Lemma congress_range_bounds_witness :
  ∃ snap,
    prepare_network_data reference_runtime mixed_bills [] [] [] []
      (Some 118) = Ok snap
    ∧ congress_range (metadata snap) = (118, 118).
Proof.
  destruct (prepare_network_data reference_runtime mixed_bills [] [] [] []
              (Some 118)) as [snap|e] eqn:Hrun.
  - exists snap. split; [reflexivity|].
    destruct (congress_range_bounds reference_runtime mixed_bills [] [] [] []
                (Some 118) snap Hrun) as (Hlo & Hhi & _).
    assert (Bill.congress <$> bills snap = [118]) as Hcs.
    { vm_compute in Hrun. injection Hrun as <-. reflexivity. }
    rewrite Hcs in Hlo, Hhi.
    apply list_elem_of_singleton in Hlo, Hhi.
    destruct (congress_range (metadata snap)). simpl in *. congruence.
  - exfalso. vm_compute in Hrun. discriminate Hrun.
Defined.


(** ** The active set in the snapshot *)

(** X9: metrics exist for exactly the ids that are an endpoint of a
    record, whether or not the legislators table knows them. *)
Theorem stats_keys_active (legislators : list Legislator.t)
    (cs : list Collaboration) :
  dom (calculate_sponsor_stats legislators cs) = active_legislators_of cs.
Proof.
  apply set_eq. intros x.
  rewrite elem_of_dom, elem_of_active_legislators_of.
  by destruct (calculate_sponsor_stats_lookup legislators cs x)
    as (_ & _ & _ & _ & _ & Hdom).
Qed.

Lemma active_rows_and_nodes (active : gset string)
    (legislators_csv : list LegislatorsCsv.row) :
  filter (λ leg, Legislator.id leg ∈ active)
    (create_legislator_nodes (clean_legislator <$> legislators_csv))
  = create_legislator_nodes
      (filter (λ row, Legislators.bioguide_id row ∈ active)
         (clean_legislator <$> legislators_csv)).
Proof.
  unfold create_legislator_nodes.
  induction (clean_legislator <$> legislators_csv) as [|row l IH]; [done|].
  rewrite fmap_cons, !filter_cons. simpl.
  destruct (decide (Legislators.bioguide_id row ∈ active));
    [rewrite fmap_cons|]; by rewrite IH.
Qed.

Lemma length_filter_fmap {A B : Type} `{EqDecision B} (f : A → B) (y : B)
    (l : list A) :
  length (filter (λ z, z = y) (f <$> l))
  = length (filter (λ x, f x = y) l).
Proof.
  induction l as [|x l IH]; [done|].
  rewrite fmap_cons, !filter_cons.
  destruct (decide (f x = y)); simpl; by rewrite IH.
Qed.

Lemma attach_filter_ids (metrics : gmap string Metrics)
    (active : gset string) (legislators_csv : list LegislatorsCsv.row) :
  Legislator.id
    <$> (attach_metrics metrics
           <$> filter (λ leg, Legislator.id leg ∈ active)
                 (create_legislator_nodes
                    (clean_legislator <$> legislators_csv)))
  = filter (λ x, x ∈ active)
      (LegislatorsCsv.bioguide_id <$> legislators_csv).
Proof.
  rewrite <- list_fmap_compose. unfold create_legislator_nodes.
  induction legislators_csv as [|row l IH]; [done|].
  rewrite !fmap_cons, !filter_cons. simpl.
  destruct (decide (LegislatorsCsv.bioguide_id row ∈ active)).
  - rewrite fmap_cons. simpl. rewrite attach_metrics_id. simpl.
    f_equal. apply IH.
  - apply IH.
Qed.

(** X10: the legislators of a snapshot are the rows of the legislators
    table whose id is an endpoint of a record, in table order, a repeated
    row being kept as often as it occurs. *)
Theorem snapshot_legislators_in_table_order (rt : Runtime)
    (bills_csv : list BillsCsv.row)
    (legislators_csv : list LegislatorsCsv.row)
    (bill_sponsors_csv : list Sponsors.row)
    (bill_policies_csv : list Policies.row)
    (bill_policy_links_csv : list Links.row)
    (target_congress : option Z) (snap : Snapshot) :
  prepare_network_data rt bills_csv legislators_csv bill_sponsors_csv
    bill_policies_csv bill_policy_links_csv target_congress = Ok snap →
  Legislator.id <$> legislators snap
  = filter (λ x, x ∈ active_legislators_of (collaborations snap))
      (LegislatorsCsv.bioguide_id <$> legislators_csv).
Proof.
  intros (Hcs & Hlegs & _)%prepare_network_data_Ok.
  cbv zeta in Hcs, Hlegs. rewrite <- Hcs in Hlegs. rewrite Hlegs.
  apply attach_filter_ids.
Qed.

Lemma snapshot_legislators_in_table_order_witness :
  ∃ snap,
    prepare_network_data reference_runtime two_bills two_legislators
      shared_sponsors [] [] None = Ok snap
    ∧ Legislator.id <$> legislators snap
      = filter (λ x, x ∈ active_legislators_of (collaborations snap))
          ["P1"; "P2"].
Proof.
  destruct (prepare_network_data reference_runtime two_bills two_legislators
              shared_sponsors [] [] None) as [snap|e] eqn:Hrun.
  - exists snap. split; [reflexivity|].
    apply (snapshot_legislators_in_table_order reference_runtime two_bills
             two_legislators shared_sponsors [] [] None snap Hrun).
  - exfalso. vm_compute in Hrun. discriminate Hrun.
Defined.

(** X11: the party distribution of a snapshot counts, for each party, the
    legislators of the snapshot of that party, and the counts of the
    snapshot are the lengths of its lists. *)
Theorem party_distribution_counts (rt : Runtime)
    (bills_csv : list BillsCsv.row)
    (legislators_csv : list LegislatorsCsv.row)
    (bill_sponsors_csv : list Sponsors.row)
    (bill_policies_csv : list Policies.row)
    (bill_policy_links_csv : list Links.row)
    (target_congress : option Z) (snap : Snapshot) :
  prepare_network_data rt bills_csv legislators_csv bill_sponsors_csv
    bill_policies_csv bill_policy_links_csv target_congress = Ok snap →
  (∀ party,
     default 0%nat (party_distribution (metadata snap) !! party)
     = length (filter (λ leg, Legislator.party leg = party)
                 (legislators snap)))
  ∧ sum_values id (party_distribution (metadata snap))
    = total_legislators (metadata snap)
  ∧ total_legislators (metadata snap) = length (legislators snap)
  ∧ total_bills (metadata snap) = length (bills snap)
  ∧ metadata_total_collaborations (metadata snap)
    = length (collaborations snap).
Proof.
  intros Hrun.
  pose proof (prepare_network_data_metadata _ _ _ _ _ _ _ _ Hrun)
    as (_ & _ & Hb & Hc & Hl & Hdist & _).
  apply prepare_network_data_Ok in Hrun as (Hcs & Hlegs & _).
  cbv zeta in Hcs, Hlegs. rewrite <- Hcs in Hlegs.
  set (active := active_legislators_of (collaborations snap)) in *.
  assert (Legislator.party <$> legislators snap
          = Legislators.party
              <$> filter (λ row, Legislators.bioguide_id row ∈ active)
                    (clean_legislator <$> legislators_csv)) as Hparties.
  { rewrite Hlegs, active_rows_and_nodes. unfold create_legislator_nodes.
    rewrite <- !list_fmap_compose. apply list_fmap_ext.
    intros i row _. simpl. by rewrite attach_metrics_party. }
  rewrite Hdist, <- Hparties.
  assert (∀ xs : list string,
            sum_values id (value_counts xs) = length xs) as Hsum.
  { intros xs. unfold value_counts.
    induction xs as [|x xs IH] using rev_ind.
    - apply sum_values_empty.
    - rewrite foldl_snoc, sum_values_incr, IH, length_app. simpl. lia. }
  split_and!; try done.
  - intros party. unfold value_counts.
    rewrite foldl_incr_lookup, lookup_empty. simpl.
    apply length_filter_fmap.
  - by rewrite Hsum, Hl, length_fmap.
Qed.

Lemma party_distribution_counts_witness :
  ∃ snap,
    prepare_network_data reference_runtime two_bills two_legislators
      shared_sponsors [] [] None = Ok snap
    ∧ sum_values id (party_distribution (metadata snap))
      = total_legislators (metadata snap).
Proof.
  destruct (prepare_network_data reference_runtime two_bills two_legislators
              shared_sponsors [] [] None) as [snap|e] eqn:Hrun.
  - exists snap. split; [reflexivity|].
    apply (party_distribution_counts reference_runtime two_bills
             two_legislators shared_sponsors [] [] None snap Hrun).
  - exfalso. vm_compute in Hrun. discriminate Hrun.
Defined.


(** ** [convert_to_serializable] *)

Section convert.
Context {F : Type}.
Implicit Types (obj : pyobj F).

(** induction over nested documents: a property holds of every object when
    it holds of an object as soon as it holds of the values and elements
    directly inside it *)
Lemma pyobj_nested_ind (P : pyobj F → Prop) :
  (∀ obj,
     match obj with
     | PyDict items => Forall (λ kv, P kv.2) items
     | PyList elems | PyTuple elems => Forall P elems
     | _ => True
     end → P obj) →
  ∀ obj, P obj.
Proof.
  intros Hstep. fix IH 1. intros obj. apply Hstep.
  destruct obj as [| | | | | | | |items|elems|elems|]; try exact I.
  - induction items as [|[key value] items IHitems]; constructor;
      [apply IH|exact IHitems].
  - induction elems as [|x elems IHelems]; constructor;
      [apply IH|exact IHelems].
  - induction elems as [|x elems IHelems]; constructor;
      [apply IH|exact IHelems].
Qed.

Lemma serializable_convert obj :
  serializable (convert_to_serializable obj) = true.
Proof.
  induction obj as [obj IH] using pyobj_nested_ind.
  destruct obj as [| | | | | | | |items|elems|elems|]; try done; simpl.
  - induction IH as [|[key value] items Hv _ IHitems]; [done|].
    simpl in *. by rewrite Hv, IHitems.
  - induction IH as [|x elems Hx _ IHelems]; [done|].
    simpl. by rewrite Hx, IHelems.
  - induction IH as [|x elems Hx _ IHelems]; [done|].
    simpl. by rewrite Hx, IHelems.
Qed.

(** X12: the result holds no numpy integer, float or boolean of the
    tested kinds and no tuple, at any depth. *)
Theorem convert_to_serializable_native obj :
  serializable (convert_to_serializable obj) = true.
Proof. apply serializable_convert. Qed.

(** An object that is already free of them is returned unchanged. *)
Lemma convert_to_serializable_fixed obj :
  serializable obj = true → convert_to_serializable obj = obj.
Proof.
  induction obj as [obj IH] using pyobj_nested_ind.
  destruct obj as [| | | | | | | |items|elems|elems|]; try done; simpl.
  - intros Hall. f_equal.
    induction IH as [|[key value] items Hv _ IHitems]; [done|].
    simpl in *. apply andb_prop in Hall as [Hvalue Hitems].
    by rewrite Hv, IHitems.
  - intros Hall. f_equal.
    induction IH as [|x elems Hx _ IHelems]; [done|].
    simpl in *. apply andb_prop in Hall as [Hhead Htail].
    by rewrite Hx, IHelems.
Qed.

(** X13: converting twice is converting once. *)
Theorem convert_to_serializable_idempotent obj :
  convert_to_serializable (convert_to_serializable obj)
  = convert_to_serializable obj.
Proof.
  apply convert_to_serializable_fixed, serializable_convert.
Qed.

(** X14: the keys of the dictionaries, at every depth, are kept as they
    are and in order. *)
Theorem convert_to_serializable_keys obj :
  all_keys (convert_to_serializable obj) = all_keys obj.
Proof.
  induction obj as [obj IH] using pyobj_nested_ind.
  destruct obj as [| | | | | | | |items|elems|elems|]; try done; simpl.
  - induction IH as [|[key value] items Hv _ IHitems]; [done|].
    simpl in *. by rewrite Hv, IHitems.
  - induction IH as [|x elems Hx _ IHelems]; [done|].
    simpl. by rewrite Hx, IHelems.
  - induction IH as [|x elems Hx _ IHelems]; [done|].
    simpl. by rewrite Hx, IHelems.
Qed.

End convert.

Example convert_numpy_document :
  convert_to_serializable numpy_document
  = PyDict [("congress_range",
             PyDict [("start", PyInt 117); ("end", PyInt 118)]);
            ("flags", PyList [PyBool true; PyNone; PyFloat 5]);
            ("name", PyStr "snapshot")].
Proof. reflexivity. Qed.


(** ** The size of the bill list *)

Lemma length_merge_left {A B K : Type} `{EqDecision K}
    (left_key : A → option K) (right_key : B → K)
    (left : list A) (right : list B) :
  (length left ≤ length (merge_left left_key right_key left right))%nat.
Proof.
  unfold merge_left. induction left as [|a l IH]; [done|].
  rewrite bind_cons, length_app.
  assert (1 ≤ length
                (match filter (λ b, left_key a = Some (right_key b)) right with
                 | [] => [(a, None)]
                 | m :: ms => (λ b, (a, Some b)) <$> m :: ms
                 end))%nat as Hone
    by (destruct (filter _ right); simpl; lia).
  cbn [length]. lia.
Qed.

Lemma length_merge_left_no_match {A B K : Type} `{EqDecision K}
    (left_key : A → option K) (right_key : B → K) (left : list A) :
  merge_left left_key right_key left [] = (λ a, (a, None)) <$> left.
Proof.
  unfold merge_left. induction left as [|a l IH]; [done|].
  rewrite bind_cons, IH. done.
Qed.

Lemma merge_left_unmatched {A B K : Type} `{EqDecision K}
    (left_key : A → option K) (right_key : B → K)
    (left : list A) (right : list B) :
  Forall (λ a, left_key a = None) left →
  merge_left left_key right_key left right = (λ a, (a, None)) <$> left.
Proof.
  unfold merge_left. induction 1 as [|a l Ha _ IH]; [done|].
  rewrite bind_cons, IH, fmap_cons.
  assert (filter (λ b, left_key a = Some (right_key b)) right = []) as ->.
  { rewrite Ha. clear. induction right as [|b r IH]; [done|].
    by rewrite filter_cons, decide_False. }
  done.
Qed.

(** X15: the joins never drop a bill: the frame has at least one row for
    each bill of the target congress or later, and exactly one when there
    is no policy link at all; with links a bill may have several rows. *)
Theorem bills_never_dropped (rt : Runtime)
    (bills_csv : list BillsCsv.row)
    (legislators_csv : list LegislatorsCsv.row)
    (bill_sponsors_csv : list Sponsors.row)
    (bill_policies_csv : list Policies.row)
    (bill_policy_links_csv : list Links.row)
    (target_congress : option Z) :
  let retained :=
    filter (λ b, default 117 target_congress ≤ BillsCsv.congress b)
      bills_csv in
  let bills :=
    process_bills
      (load_and_clean_data rt bills_csv legislators_csv bill_sponsors_csv
         bill_policies_csv bill_policy_links_csv target_congress).1.1.1 in
  (length retained ≤ length bills)%nat
  ∧ (bill_policy_links_csv = [] → length bills = length retained).
Proof.
  intros retained bills. unfold bills, process_bills, load_and_clean_data.
  cbv zeta. simpl. fold retained. rewrite !length_fmap. split.
  - etrans; [|apply length_merge_left].
    rewrite length_fmap.
    etrans; [|apply length_merge_left].
    by rewrite sort_values_desc_perm, length_fmap.
  - intros ->. rewrite length_merge_left_no_match.
    rewrite <- list_fmap_compose.
    rewrite merge_left_unmatched by (by apply Forall_fmap, Forall_true).
    by rewrite !length_fmap, sort_values_desc_perm, length_fmap.
Qed.

Lemma bills_never_dropped_witness :
  length (process_bills
            (load_and_clean_data reference_runtime two_bills [] []
               two_policies [] None).1.1.1) = 2%nat.
Proof.
  destruct (bills_never_dropped reference_runtime two_bills [] []
              two_policies [] None) as [_ Heq].
  rewrite Heq; [|reflexivity]. by vm_compute.
Defined.

(** a bill linked to two policies has two records *)
Example bill_fan_out :
  Bill.bill_number
    <$> process_bills
          (load_and_clean_data reference_runtime one_bill [] []
             two_policies two_links None).1.1.1
  = ["B1"; "B1"].
Proof. by vm_compute. Qed.

(** ** The metrics a legislator carries *)

Lemma length_filter_pos {A : Type} (P : A → Prop) `{∀ x, Decision (P x)}
    (l : list A) (x : A) :
  x ∈ l → P x → (0 < length (filter P l))%nat.
Proof.
  intros Hx HP.
  assert (x ∈ filter P l) as Hin by by apply list_elem_of_filter.
  destruct (filter P l); [by apply elem_of_nil in Hin|simpl; lia].
Qed.

(** X16: every legislator of a snapshot carries metrics; its total is
    positive, and [primary_count] and [cosponsor_count] are 0: the
    aggregator never fills them. *)
Theorem placeholders_stay_zero (rt : Runtime)
    (bills_csv : list BillsCsv.row)
    (legislators_csv : list LegislatorsCsv.row)
    (bill_sponsors_csv : list Sponsors.row)
    (bill_policies_csv : list Policies.row)
    (bill_policy_links_csv : list Links.row)
    (target_congress : option Z) (snap : Snapshot) :
  prepare_network_data rt bills_csv legislators_csv bill_sponsors_csv
    bill_policies_csv bill_policy_links_csv target_congress = Ok snap →
  Forall (λ leg,
            ∃ m, Legislator.metrics leg = Some m
                 ∧ (0 < total_collaborations m)%nat
                 ∧ primary_count m = 0%nat
                 ∧ cosponsor_count m = 0%nat)
    (legislators snap).
Proof.
  intros (Hcs & Hlegs & _)%prepare_network_data_Ok.
  cbv zeta in Hcs, Hlegs. rewrite <- Hcs in Hlegs.
  apply Forall_forall. intros leg Hleg. rewrite Hlegs in Hleg.
  apply list_elem_of_fmap in Hleg as (leg0 & -> & Hleg0).
  apply list_elem_of_filter in Hleg0 as [Hact _].
  apply elem_of_active_legislators_of in Hact.
  set (legs := filter _ _).
  destruct (calculate_sponsor_stats_lookup legs (collaborations snap)
              (Legislator.id leg0))
    as (Htot & _ & _ & Hpc & Hcc & Hdom).
  apply Hdom in Hact as Hsome.
  rewrite attach_metrics_metrics by done.
  destruct Hsome as [m Hm]. rewrite Hm in *. simpl in *.
  exists m. split_and!; try done.
  rewrite Htot. unfold endpoint_count.
  destruct Hact as (c & Hc & [Hs|Ht]).
  - pose proof (length_filter_pos (λ c, source c = Legislator.id leg0)
                  _ c Hc Hs). lia.
  - pose proof (length_filter_pos (λ c, target c = Legislator.id leg0)
                  _ c Hc Ht). lia.
Qed.

Lemma placeholders_stay_zero_witness :
  ∃ snap,
    prepare_network_data reference_runtime two_bills two_legislators
      shared_sponsors [] [] None = Ok snap
    ∧ Forall (λ leg,
                ∃ m, Legislator.metrics leg = Some m
                     ∧ (0 < total_collaborations m)%nat
                     ∧ primary_count m = 0%nat
                     ∧ cosponsor_count m = 0%nat)
        (legislators snap).
Proof.
  destruct (prepare_network_data reference_runtime two_bills two_legislators
              shared_sponsors [] [] None) as [snap|e] eqn:Hrun.
  - exists snap. split; [reflexivity|].
    apply (placeholders_stay_zero reference_runtime two_bills
             two_legislators shared_sponsors [] [] None snap Hrun).
  - exfalso. vm_compute in Hrun. discriminate Hrun.
Defined.
